(** * A shallow embedding of the photo-sharing web application (webapp/python/app.py)

    The request handlers of [app.py] are embedded as computations in a small
    state-and-exit monad over a world made of the relational store (tables
    users, posts, comments with their AUTO_INCREMENT counters), the browser
    session, and the log of SQL statements handed to [cursor.execute].

    External collaborators are parameters of the development: the one-way
    [digest] (an [openssl dgst -sha512] subprocess in the source), the store's
    comparison of the [account_name] column with a bound string, and the
    store's comparison of an integer column with a bound string. *)

From Stdlib Require Import ZArith String Ascii Lia Bool.
From stdpp Require Import gmap strings list pretty.
From Stdlib Require Import Sorted.

Local Open Scope string_scope.
Local Open Scope list_scope.
Local Open Scope Z_scope.

(** ** Python helpers used by the handlers *)

Module Py.

Definition in_range (lo hi : nat) (c : ascii) : bool :=
  ((lo <=? nat_of_ascii c)%nat && (nat_of_ascii c <=? hi)%nat)%bool.

(** [0-9] *)
Definition is_digit (c : ascii) : bool := in_range 48 57 c.

(** [0-9a-zA-Z] *)
Definition is_alnum (c : ascii) : bool :=
  (is_digit c || in_range 97 122 c || in_range 65 90 c)%bool.

(** [0-9a-zA-Z_] *)
Definition is_word (c : ascii) : bool :=
  (is_alnum c || Ascii.eqb c "_")%bool.

(** Length of the longest prefix of [s] whose characters are all in [cls]. *)
Fixpoint prefix_len (cls : ascii -> bool) (s : string) : nat :=
  match s with
  | String c s' => if cls c then S (prefix_len cls s') else O
  | EmptyString => O
  end.

(** [re.match(r"[cls]{n,}", s)] as a truth value: [re.match] anchors the
    pattern at the start of [s] only, so the match succeeds as soon as the
    first [n] characters are in the class, whatever follows them. *)
Definition re_match_repeat (cls : ascii -> bool) (n : nat) (s : string) : bool :=
  (n <=? prefix_len cls s)%nat.

(** Every character of [s] is in [cls]. *)
Fixpoint all_in (cls : ascii -> bool) (s : string) : bool :=
  match s with
  | String c s' => (cls c && all_in cls s')%bool
  | EmptyString => true
  end.

(** Whitespace that [int()] strips, on ASCII: \t \n \v \f \r and the
    space. *)
Definition is_space (c : ascii) : bool :=
  (in_range 9 13 c || Ascii.eqb c " ")%bool.

Fixpoint lstrip (s : string) : string :=
  match s with
  | String c s' => if is_space c then lstrip s' else s
  | EmptyString => EmptyString
  end.

Fixpoint rstrip (s : string) : string :=
  match s with
  | String c s' =>
      match rstrip s' with
      | EmptyString => if is_space c then EmptyString else String c EmptyString
      | r => String c r
      end
  | EmptyString => EmptyString
  end.

Definition strip (s : string) : string := rstrip (lstrip s).

Definition digit_val (c : ascii) : Z := Z.of_nat (nat_of_ascii c) - 48.

(** Decimal digits, with single underscores allowed between two digits.
    [after_digit] tells whether the previous character was a digit. *)
Fixpoint digits_value (acc : Z) (after_digit : bool) (s : string) : option Z :=
  match s with
  | EmptyString => if after_digit then Some acc else None
  | String c s' =>
      if is_digit c then digits_value (10 * acc + digit_val c) true s'
      else if (Ascii.eqb c "_" && after_digit)%bool then digits_value acc false s'
      else None
  end.

(** [int(s)] for a [str] in base 10; [None] is ValueError.  Strings are
    taken byte-wise, so this is [int] on ASCII text: the decimal digits and
    the whitespace that Unicode has outside ASCII are not read, and the
    limit that recent Pythons put on the number of digits (4300) is not
    applied.  What is stated below through [int] is stated for text that is
    [plain]. *)
Definition int (s : string) : option Z :=
  match strip s with
  | String "-" r => Z.opp <$> digits_value 0 false r
  | String "+" r => digits_value 0 false r
  | t => digits_value 0 false t
  end.

(** ["%d" % n] *)
Definition fmt_d (n : Z) : string := pretty n.

End Py.

(** ** Data model: rows of the three tables *)

Record user := User {
  u_id : Z;
  u_account_name : string;
  u_passhash : string;
  u_authority : Z;
  u_del_flg : Z;
  u_created_at : Z
}.

Record post := Post {
  p_id : Z;
  p_user_id : Z;
  p_mime : string;
  p_imgdata : list Byte.byte;
  p_body : option string;
  p_created_at : Z
}.

Record comment := Comment {
  c_id : Z;
  c_post_id : Z;
  c_user_id : Z;
  c_comment : string;
  c_created_at : Z
}.

(** What [make_posts] adds to a row: the keys "user", "comments" and
    "comment_count" of a post, the key "user" of a comment. *)
Record assembled_comment := AComment {
  ac_row : comment;
  ac_user : option user
}.

Record assembled_post := APost {
  ap_row : post;
  ap_user : option user;
  ap_comments : list assembled_comment;
  ap_comment_count : Z
}.

(** The store: the tables in insertion order, the AUTO_INCREMENT counters
    and the clock behind CURRENT_TIMESTAMP. *)
Record database := Database {
  users : list user;
  posts : list post;
  comments : list comment;
  next_user_id : Z;
  next_post_id : Z;
  next_comment_id : Z;
  now : Z
}.

(** [flask.session]: the keys "user" (a dict holding the id), "csrf_token"
    and the flashed messages. *)
Record session := Session {
  s_user : option Z;
  s_csrf_token : option string;
  s_flashes : list string
}.

Definition empty_session : session := Session None None [].

(** An uploaded file ([werkzeug.FileStorage]). *)
Record file_storage := FileStorage {
  filename : string;
  mimetype : string;
  stream : list Byte.byte
}.

(** [flask.request]: the form fields and the uploaded files, in order. *)
Record request := Request {
  form : list (string * string);
  files : list (string * file_storage)
}.

(** Statements handed to [cursor.execute], with their bound parameters. *)
Inductive statement :=
| Select_user_by_id (id : Z)
| Select_user_by_account_live (account_name : string)
| Select_account_exists (account_name : string)
| Insert_user (account_name passhash : string)
| Select_comments_in (post_ids : list Z) (limit : Z)
| Select_users_in (ids : list Z)
| Select_post_live_owner (id : string)
| Select_post_by_id (id : Z)
| Insert_post (user_id : Z) (mime : string) (imgdata : list Byte.byte) (body : option string)
| Insert_comment (post_id user_id : Z) (text : string)
| Select_ban_candidates
| Update_del_flg (del_flg id : Z).

Inductive exn :=
| TypeError
| KeyError (key : string)
| ValueError.

Inductive response :=
| Redirect (location : string)                       (* flask.redirect, 302 *)
| Text (body : string)                               (* a str returned by the view, 200 *)
| Image (data : list Byte.byte) (content_type : string)  (* flask.Response(data, mimetype=...) *)
| Render_post (p : assembled_post) (me : option user)    (* render_template("post.html", ...) *)
| Abort (code : Z)                                   (* flask.abort(code), or 400 on a missing form key *)
| Crash (e : exn)                                    (* uncaught exception, 500 *)
| View_returned_none.                                (* the view fell off its end, 500 *)

Record world := World {
  w_db : database;
  w_session : session;
  w_log : list statement
}.

(** ** The handler monad: state passing with early exit *)

Inductive outcome (A : Type) :=
| Value (a : A)
| Exit (r : response).
Arguments Value {A} a.
Arguments Exit {A} r.

Definition flask (A : Type) : Type := world -> outcome A * world.

Definition ret {A} (a : A) : flask A := fun w => (Value a, w).

Definition bind {A B} (m : flask A) (k : A -> flask B) : flask B :=
  fun w => match m w with
           | (Value a, w') => k a w'
           | (Exit r, w') => (Exit r, w')
           end.

Declare Scope flask_scope.
Delimit Scope flask_scope with flask.
Notation "x <- m ;; k" := (bind m (fun x => k))
  (at level 100, m at next level, right associativity) : flask_scope.
Notation "m ;;; k" := (bind m (fun _ => k))
  (at level 100, right associativity) : flask_scope.
Local Open Scope flask_scope.

Definition gets {A} (f : world -> A) : flask A := fun w => (Value (f w), w).
Definition modify (f : world -> world) : flask unit := fun w => (Value tt, f w).

(** [flask.abort(code)] *)
Definition abort {A} (code : Z) : flask A := fun w => (Exit (Abort code), w).
(** an exception nobody catches *)
Definition raise {A} (e : exn) : flask A := fun w => (Exit (Crash e), w).
(** an expression statement: the value is computed and dropped *)
Definition discard {A} (a : A) : flask unit := ret tt.

(** What the client receives from a view, and the world it leaves. *)
Definition run_view (v : flask response) (w : world) : response * world :=
  match v w with
  | (Value r, w') => (r, w')
  | (Exit r, w') => (r, w')
  end.

Definition with_db (f : database -> database) (w : world) : world :=
  World (f (w_db w)) (w_session w) (w_log w).
Definition with_session (f : session -> session) (w : world) : world :=
  World (w_db w) (f (w_session w)) (w_log w).
Definition with_log (f : list statement -> list statement) (w : world) : world :=
  World (w_db w) (w_session w) (f (w_log w)).

(** [cursor.execute(q, params)]: the statement reaches the store. *)
Definition execute (q : statement) : flask unit :=
  modify (with_log (fun l => l ++ [q])).

(** [flask.request.form[key]]: the first value of the key, 400 if absent. *)
Definition form_get (req : request) (key : string) : option string :=
  snd <$> List.find (fun kv => String.eqb (fst kv) key) (form req).

Definition form_item (req : request) (key : string) : flask string :=
  match form_get req key with
  | Some v => ret v
  | None => abort 400
  end.

(** [flask.session[key]] for the CSRF token: KeyError if absent. *)
Definition session_csrf_token : flask string :=
  s <- gets w_session;;
  match s_csrf_token s with
  | Some t => ret t
  | None => raise (KeyError "csrf_token")
  end.

(** [flask.flash(message)] *)
Definition flash (message : string) : flask unit :=
  modify (with_session (fun s => Session (s_user s) (s_csrf_token s) (s_flashes s ++ [message]))).

(** [flask.session["user"] = {"id": id}; flask.session["csrf_token"] = token] *)
Definition session_login (id : Z) (token : string) : flask unit :=
  modify (with_session (fun s => Session (Some id) (Some token) (s_flashes s))).

(** ** The store's queries

    Each function stands for one [cursor.execute] followed by the fetch the
    source does on it; tables are scanned in insertion order. *)

Definition set_users (us : list user) (next : Z) (db : database) : database :=
  Database us (posts db) (comments db) next
           (next_post_id db) (next_comment_id db) (now db).
Definition set_posts (ps : list post) (next : Z) (db : database) : database :=
  Database (users db) ps (comments db) (next_user_id db)
           next (next_comment_id db) (now db).
Definition set_comments (cs : list comment) (next : Z) (db : database) : database :=
  Database (users db) (posts db) cs (next_user_id db)
           (next_post_id db) next (now db).

(** Modelled from the spec: the column defaults of the [users] table, whose
    schema is not part of the source: a new account has authority 0 (normal)
    and del_flg 0 (active), and ids are generated by the store. *)
Definition default_authority : Z := 0.
Definition default_del_flg : Z := 0.

(** [cursor.fetchone()] *)
Definition fetchone {A} (rows : list A) : option A := head rows.

(** Stable insertion sort, standing for ORDER BY. *)
Fixpoint insert_by {A} (le : A -> A -> bool) (x : A) (l : list A) : list A :=
  match l with
  | [] => [x]
  | y :: l' => if le x y then x :: l else y :: insert_by le x l'
  end.
Definition order_by {A} (le : A -> A -> bool) (l : list A) : list A :=
  foldr (insert_by le) [] l.

Definition mem (x : Z) (l : list Z) : bool := existsb (Z.eqb x) l.

(** SELECT * FROM `users` WHERE `id` = %s *)
Definition select_user_by_id (id : Z) : flask (option user) :=
  execute (Select_user_by_id id);;;
  db <- gets w_db;;
  ret (fetchone (List.filter (fun u => u_id u =? id) (users db))).

(** SELECT * FROM `comments` WHERE `post_id` IN (...)
    ORDER BY `post_id`, `created_at` DESC LIMIT limit *)
Definition comment_order (a b : comment) : bool :=
  (c_post_id a <? c_post_id b)
  || ((c_post_id a =? c_post_id b) && (c_created_at b <=? c_created_at a)).

Definition select_comments_in (post_ids : list Z) (limit : Z) : flask (list comment) :=
  execute (Select_comments_in post_ids limit);;;
  db <- gets w_db;;
  ret (take (Z.to_nat limit)
         (order_by comment_order
            (List.filter (fun c => mem (c_post_id c) post_ids) (comments db)))).

(** SELECT * FROM `users` WHERE `id` IN (...) *)
Definition select_users_in (ids : list Z) : flask (list user) :=
  execute (Select_users_in ids);;;
  db <- gets w_db;;
  ret (List.filter (fun u => mem (u_id u) ids) (users db)).

(** SELECT * FROM `posts` WHERE `id` = %s *)
Definition select_post_by_id (id : Z) : flask (option post) :=
  execute (Select_post_by_id id);;;
  db <- gets w_db;;
  ret (fetchone (List.filter (fun p => p_id p =? id) (posts db))).

(** INSERT INTO `users` (`account_name`, `passhash`) VALUES (%s, %s);
    the value is [cursor.lastrowid]. *)
Definition insert_user (account_name passhash : string) : flask Z :=
  execute (Insert_user account_name passhash);;;
  db <- gets w_db;;
  let id := next_user_id db in
  modify (with_db (set_users
    (users db ++ [User id account_name passhash default_authority default_del_flg (now db)])
    (id + 1)));;;
  ret id.

(** INSERT INTO `posts` (`user_id`, `mime`, `imgdata`, `body`) VALUES (%s,%s,%s,%s) *)
Definition insert_post (user_id : Z) (mime : string) (imgdata : list Byte.byte)
    (body : option string) : flask Z :=
  execute (Insert_post user_id mime imgdata body);;;
  db <- gets w_db;;
  let id := next_post_id db in
  modify (with_db (set_posts
    (posts db ++ [Post id user_id mime imgdata body (now db)]) (id + 1)));;;
  ret id.

(** INSERT INTO `comments` (`post_id`, `user_id`, `comment`) VALUES (%s, %s, %s) *)
Definition insert_comment (post_id user_id : Z) (text : string) : flask Z :=
  execute (Insert_comment post_id user_id text);;;
  db <- gets w_db;;
  let id := next_comment_id db in
  modify (with_db (set_comments
    (comments db ++ [Comment id post_id user_id text (now db)]) (id + 1)));;;
  ret id.

(** SELECT * FROM `users` WHERE `authority` = 0 AND `del_flg` = 0
    ORDER BY `created_at` DESC *)
Definition select_ban_candidates : flask (list user) :=
  execute Select_ban_candidates;;;
  db <- gets w_db;;
  ret (order_by (fun a b => u_created_at b <=? u_created_at a)
         (List.filter (fun u => (u_authority u =? 0) && (u_del_flg u =? 0)) (users db))).

(** UPDATE `users` SET `del_flg` = %s WHERE `id` = %s *)
Definition set_del_flg (flg : Z) (u : user) : user :=
  User (u_id u) (u_account_name u) (u_passhash u) (u_authority u) flg (u_created_at u).

Definition update_del_flg (flg id : Z) : flask unit :=
  execute (Update_del_flg flg id);;;
  modify (with_db (fun db =>
    set_users (map (fun u => if u_id u =? id then set_del_flg flg u else u) (users db))
              (next_user_id db) db)).

(** ** Session accessor *)

(** [get_session_user]: the row whose id is the session's, asked afresh. *)
Definition get_session_user : flask (option user) :=
  user <- gets (fun w => s_user (w_session w));;
  match user with
  | Some id => select_user_by_id id
  | None => ret None
  end.

(** ** Post assembly ([make_posts]) *)

(** The two dictionaries of step 3: the comments kept for each post and the
    number of comments seen for it. *)
Definition comment_tables : Type := gmap Z (list assembled_comment) * gmap Z Z.

(** [for post_id in post_ids: comments_by_post_id[post_id] = []; comment_counts[post_id] = 0] *)
Definition init_comment_tables (post_ids : list Z) : comment_tables :=
  foldl (fun (t : comment_tables) post_id => (<[post_id := []]> (fst t), <[post_id := 0]> (snd t)))
        (∅, ∅) post_ids.

(** The body of [for comment in all_related_comments]; [None] is the
    KeyError of a [post_id] that is not a key of the dictionaries. *)
Definition attach_comment (all_comments : bool) (users_by_id : gmap Z user)
    (t : comment_tables) (c : comment) : option comment_tables :=
  let post_id := c_post_id c in
  match snd t !! post_id, fst t !! post_id with
  | Some n, Some kept =>
      let counts := <[post_id := n + 1]> (snd t) in
      if all_comments || (length kept <? 3)%nat
      then Some (<[post_id := kept ++ [AComment c (users_by_id !! c_user_id c)]]> (fst t), counts)
      else Some (fst t, counts)
  | _, _ => None
  end.

Fixpoint attach_comments (all_comments : bool) (users_by_id : gmap Z user)
    (cs : list comment) (t : comment_tables) : option comment_tables :=
  match cs with
  | [] => Some t
  | c :: cs' =>
      match attach_comment all_comments users_by_id t c with
      | Some t' => attach_comments all_comments users_by_id cs' t'
      | None => None
      end
  end.

(** [if p["user"] and not p["user"]["del_flg"]] *)
Definition owner_live (users_by_id : gmap Z user) (p : post) : bool :=
  match users_by_id !! p_user_id p with
  | Some u => u_del_flg u =? 0
  | None => false
  end.

(** A post on its way out of step 4.  Its "comments" key holds the list
    object of [comments_by_post_id] itself, not a copy: the list is named
    by the post id and read once the loop is over. *)
Record pending_post := Pending {
  pp_row : post;
  pp_user : option user;
  pp_comment_count : Z
}.

(** The loop of step 4.  [post_comments.reverse()] reverses the list object
    in place, so the dictionary is threaded through the loop; a post id that
    is no key gets a fresh empty list, which reversing leaves empty. *)
Fixpoint finish_posts (users_by_id : gmap Z user) (counts : gmap Z Z)
    (results : list post) (comments_by_post_id : gmap Z (list assembled_comment))
    : list pending_post * gmap Z (list assembled_comment) :=
  match results with
  | [] => ([], comments_by_post_id)
  | p :: rest =>
      let reversed := alter (@rev assembled_comment) (p_id p) comments_by_post_id in
      let '(kept, final) := finish_posts users_by_id counts rest reversed in
      let pp := Pending p (users_by_id !! p_user_id p) (default 0 (counts !! p_id p)) in
      (if owner_live users_by_id p then pp :: kept else kept, final)
  end.

Definition resolve (final : gmap Z (list assembled_comment)) (pp : pending_post)
    : assembled_post :=
  APost (pp_row pp) (pp_user pp) (default [] (final !! p_id (pp_row pp)))
        (pp_comment_count pp).

(** Steps 1 and 2: the comment query and the user query. *)
Definition fetch_related (results : list post) (all_comments : bool)
    : flask (list comment * gmap Z user) :=
  let post_ids := map p_id results in
  let user_ids_from_posts : gset Z := list_to_set (map p_user_id results) in
  let limit_count :=
    if all_comments then 20 else Z.min (Z.of_nat (length post_ids) * 3) 20 in
  all_related_comments <- select_comments_in post_ids limit_count;;
  let user_ids_from_comments : gset Z :=
    list_to_set (map c_user_id all_related_comments) in
  let all_user_ids := elements (user_ids_from_posts ∪ user_ids_from_comments) in
  users_by_id <-
    match all_user_ids with
    | [] => ret ∅
    | _ :: _ =>
        rows <- select_users_in all_user_ids;;
        ret (foldl (fun (m : gmap Z user) u => <[u_id u := u]> m) ∅ rows)
    end;;
  ret (all_related_comments, users_by_id).

Definition make_posts (results : list post) (all_comments : bool)
    : flask (list assembled_post) :=
  match results with
  | [] => ret []
  | _ :: _ =>
      fetched <- fetch_related results all_comments;;
      let '(all_related_comments, users_by_id) := fetched in
      match attach_comments all_comments users_by_id all_related_comments
              (init_comment_tables (map p_id results)) with
      | None => raise (KeyError "post_id")
      | Some (comments_by_post_id, comment_counts) =>
          let '(kept, final) :=
            finish_posts users_by_id comment_counts results comments_by_post_id in
          ret (map (resolve final) kept)
      end
  end.

(** ** Credentials *)

Definition UPLOAD_LIMIT : Z := 10 * 1024 * 1024.

(** [validate_user]: both patterns go through [re.match]. *)
Definition validate_user (account_name password : string) : bool :=
  if negb (Py.re_match_repeat Py.is_alnum 3 account_name) then false
  else if negb (Py.re_match_repeat Py.is_word 6 password) then false
  else true.

Section App.

(** [digest]: the hex SHA-512 printed by the openssl subprocess. *)
Variable digest : string -> string.
(** The store's [=] between the [account_name] column and a bound string
    (the column's collation decides it). *)
Variable account_name_eq : string -> string -> bool.
(** The store's [=] between an integer column and a bound string, as in
    [WHERE p.id = %s] with the [id] of the URL. *)
Variable int_eq_str : Z -> string -> bool.

Definition calculate_salt (account_name : string) : string :=
  digest account_name.

(** [digest("%s:%s" % (password, calculate_salt(account_name)))] *)
Definition calculate_passhash (account_name password : string) : string :=
  digest (password +:+ ":" +:+ calculate_salt account_name).

(** SELECT * FROM users WHERE account_name = %s AND del_flg = 0 *)
Definition select_user_by_account_live (account_name : string) : flask (option user) :=
  execute (Select_user_by_account_live account_name);;;
  db <- gets w_db;;
  ret (fetchone (List.filter
         (fun u => account_name_eq (u_account_name u) account_name && (u_del_flg u =? 0))
         (users db))).

(** SELECT 1 FROM users WHERE `account_name` = %s *)
Definition select_account_exists (account_name : string) : flask bool :=
  execute (Select_account_exists account_name);;;
  db <- gets w_db;;
  ret (existsb (fun u => account_name_eq (u_account_name u) account_name) (users db)).

(** SELECT p.* FROM posts p JOIN users u ON p.user_id = u.id
    WHERE p.id = %s AND u.del_flg = 0 *)
Definition select_post_live_owner (id : string) : flask (list post) :=
  execute (Select_post_live_owner id);;;
  db <- gets w_db;;
  ret (flat_map
         (fun p => map (fun _ => p)
            (List.filter (fun u => (p_user_id p =? u_id u) && (u_del_flg u =? 0)) (users db)))
         (List.filter (fun p => int_eq_str (p_id p) id) (posts db))).

Definition try_login (account_name password : string) : flask (option user) :=
  user <- select_user_by_account_live account_name;;
  match user with
  | Some u =>
      if String.eqb (calculate_passhash (u_account_name u) password) (u_passhash u)
      then ret (Some u)
      else ret None
  | None => ret None
  end.

(** ** Request handlers *)

(** POST /login; [token] is [os.urandom(8).hex()]. *)
Definition post_login (req : request) (token : string) : flask response :=
  me <- get_session_user;;
  match me with
  | Some _ => ret (Redirect "/")
  | None =>
      account_name <- form_item req "account_name";;
      password <- form_item req "password";;
      user <- try_login account_name password;;
      match user with
      | Some u =>
          session_login (u_id u) token;;;
          ret (Redirect "/")
      | None =>
          flash "アカウント名かパスワードが間違っています";;;
          ret (Redirect "/login")
      end
  end.

(** POST /register *)
Definition post_register (req : request) (token : string) : flask response :=
  me <- get_session_user;;
  match me with
  | Some _ => ret (Redirect "/")
  | None =>
      account_name <- form_item req "account_name";;
      password <- form_item req "password";;
      if negb (validate_user account_name password) then
        flash "アカウント名は3文字以上、パスワードは6文字以上である必要があります";;;
        ret (Redirect "/register")
      else
        user <- select_account_exists account_name;;
        if (user : bool) then
          flash "アカウント名がすでに使われています";;;
          ret (Redirect "/register")
        else
          lastrowid <- insert_user account_name (calculate_passhash account_name password);;
          session_login lastrowid token;;;
          ret (Redirect "/")
  end.

(** GET /logout: [flask.session.clear()] *)
Definition get_logout : flask response :=
  modify (with_session (fun _ => empty_session));;;
  ret (Redirect "/").

(** GET /posts/<id> *)
Definition get_posts_id (id : string) : flask response :=
  results <- select_post_live_owner id;;
  posts <- make_posts results true;;
  match posts with
  | [] => abort 404
  | p :: _ =>
      me <- get_session_user;;
      ret (Render_post p me)
  end.

End App.

(** [flask.request.form["csrf_token"] != flask.session["csrf_token"]] *)
Definition csrf_mismatch (req : request) : flask bool :=
  submitted <- form_item req "csrf_token";;
  stored <- session_csrf_token;;
  ret (negb (String.eqb submitted stored)).

(** [flask.request.files.get("file")] *)
Definition files_get (req : request) (key : string) : option file_storage :=
  snd <$> List.find (fun kv => String.eqb (fst kv) key) (files req).

(** A [FileStorage] is true when it has a file name. *)
Definition file_truthy (f : option file_storage) : bool :=
  match f with
  | Some f => negb (String.eqb (filename f) EmptyString)
  | None => false
  end.

Definition supported_mime (mime : string) : bool :=
  String.eqb mime "image/jpeg" || String.eqb mime "image/png" || String.eqb mime "image/gif".

(** POST / *)
Definition post_index (req : request) : flask response :=
  me <- get_session_user;;
  match me with
  | None => ret (Redirect "/login")
  | Some me =>
      bad <- csrf_mismatch req;;
      if (bad : bool) then abort 422 else
      match files_get req "file" with
      | Some file =>
          if negb (file_truthy (Some file)) then
            flash "画像が必要です";;; ret (Redirect "/")
          else
          let mime := mimetype file in
          if negb (supported_mime mime) then
            flash "投稿できる画像形式はjpgとpngとgifだけです";;; ret (Redirect "/")
          else
          (* tempf.tell() after file.save(tempf): the bytes written *)
          if Z.of_nat (length (stream file)) >? UPLOAD_LIMIT then
            flash "ファイルサイズが大きすぎます";;; ret (Redirect "/")
          else
          let imgdata := stream file in
          pid <- insert_post (u_id me) mime imgdata (form_get req "body");;
          ret (Redirect ("/posts/" +:+ Py.fmt_d pid))
      | None =>
          flash "画像が必要です";;; ret (Redirect "/")
      end
  end.

(** GET /image/<id>.<ext> *)
Definition ext_matches (ext mime : string) : bool :=
  (String.eqb ext "jpg" && String.eqb mime "image/jpeg")
  || (String.eqb ext "png" && String.eqb mime "image/png")
  || (String.eqb ext "gif" && String.eqb mime "image/gif").

Definition get_image (id ext : string) : flask response :=
  if String.eqb id EmptyString then ret (Text EmptyString) else
  match Py.int id with
  | None => raise ValueError
  | Some id =>
      if id =? 0 then ret (Text EmptyString) else
      post <- select_post_by_id id;;
      match post with
      | None => raise TypeError          (* post["mime"] on None *)
      | Some post =>
          let mime := p_mime post in
          if ext_matches ext mime then ret (Image (p_imgdata post) mime)
          else abort 404
      end
  end.

(** POST /comment *)
Definition post_comment (req : request) : flask response :=
  me <- get_session_user;;
  match me with
  | None => ret (Redirect "/login")
  | Some me =>
      bad <- csrf_mismatch req;;
      if (bad : bool) then abort 422 else
      post_id <- form_item req "post_id";;
      if negb (Py.re_match_repeat Py.is_digit 1 post_id) then
        ret (Text "post_idは整数のみです")
      else
      match Py.int post_id with
      | None => raise ValueError
      | Some post_id =>
          text <- form_item req "comment";;
          insert_comment post_id (u_id me) text;;;
          ret (Redirect ("/posts/" +:+ Py.fmt_d post_id))
      end
  end.

(** GET /admin/banned.  The redirect of the first test is built and dropped
    (there is no [return]), and so is the rendered page at the end. *)
Definition get_banned : flask response :=
  me <- get_session_user;;
  match me with
  | None => discard (Redirect "/login")
  | Some _ => ret tt
  end;;;
  match me with
  | None => raise TypeError              (* me["authority"] on None *)
  | Some me =>
      if u_authority me =? 0 then abort 403 else
      users <- select_ban_candidates;;
      discard (users, me);;;
      ret View_returned_none
  end.

(** [flask.request.form.getlist("uid", type=int)]: the values that convert. *)
Definition form_getlist_int (req : request) (key : string) : list Z :=
  omap (fun kv => if String.eqb (fst kv) key then Py.int (snd kv) else None) (form req).

Fixpoint for_each {A} (l : list A) (body : A -> flask unit) : flask unit :=
  match l with
  | [] => ret tt
  | x :: l' => body x;;; for_each l' body
  end.

(** POST /admin/banned *)
Definition post_banned (req : request) : flask response :=
  me <- get_session_user;;
  match me with
  | None => discard (Redirect "/login")
  | Some _ => ret tt
  end;;;
  match me with
  | None => raise TypeError
  | Some me =>
      if u_authority me =? 0 then abort 403 else
      bad <- csrf_mismatch req;;
      if (bad : bool) then abort 422 else
      for_each (form_getlist_int req "uid") (fun id => update_del_flg 1 id);;;
      ret (Redirect "/admin/banned")
  end.

(** ** Sample data: a small store and a few sessions on which the handlers
    are run *)

Module Sample.

(** Stand-ins for the external collaborators, good enough to run the
    handlers: a tagging function for the digest, exact equality for the
    collation, and equality with the decimal writing of the integer. *)
Definition digest (s : string) : string := "sha512:" +:+ s.
Definition account_name_eq : string -> string -> bool := String.eqb.
Definition int_eq_str (n : Z) (s : string) : bool := String.eqb (Py.fmt_d n) s.

Definition root : user :=
  User 1 "root01" (calculate_passhash digest "root01" "rootpass") 1 0 100.
Definition alice : user :=
  User 2 "alice01" (calculate_passhash digest "alice01" "secret123") 0 0 200.
Definition bob : user :=
  User 3 "bob123" (calculate_passhash digest "bob123" "hunter22") 0 1 300.

Definition png_bytes : list Byte.byte := [Byte.x89; Byte.x50; Byte.x4e; Byte.x47].
Definition jpg_bytes : list Byte.byte := [Byte.xff; Byte.xd8; Byte.xff].

Definition alice_post : post := Post 1 2 "image/png" png_bytes (Some "hello") 400.
Definition bob_post : post := Post 2 3 "image/jpeg" jpg_bytes None 500.

Definition first_comment : comment := Comment 1 1 3 "nice!" 600.
Definition second_comment : comment := Comment 2 1 2 "thanks" 700.

Definition db : database :=
  Database [root; alice; bob] [alice_post; bob_post] [first_comment; second_comment]
           4 3 3 1000.

Definition anonymous : world := World db empty_session [].
Definition as_root : world := World db (Session (Some 1) (Some "r00t") []) [].
Definition as_alice : world := World db (Session (Some 2) (Some "a11ce") []) [].
Definition as_bob : world := World db (Session (Some 3) (Some "b0b") []) [].

End Sample.

(** ** The rest of the application: fixture reset, pages, image URLs

    The statements of this part are run against the store without an entry
    in the statement log of the world, which names the statements of the
    handlers above; [make_posts], [get_session_user] and the login lookup
    keep logging theirs.  A rendered template is recorded by its name and
    the values handed to it; the templates are not part of the source, and
    what rendering them does to the flashed messages is not modelled. *)

Definition POSTS_PER_PAGE : Z := 20.

(** A SELECT, as a reading of the store. *)
Definition query {A} (f : database -> A) : flask A :=
  gets (fun w => f (w_db w)).

(** An UPDATE or DELETE, as a change of the store. *)
Definition update (f : database -> database) : flask unit :=
  modify (with_db f).

(** [db_initialize]: the five statements, in order.  DELETE leaves the
    AUTO_INCREMENT counters where they are. *)
Definition db_initialize : flask unit :=
  (* DELETE FROM users WHERE id > 1000 *)
  update (fun db => set_users (List.filter (fun u => negb (u_id u >? 1000)) (users db))
                              (next_user_id db) db);;;
  (* DELETE FROM posts WHERE id > 10000 *)
  update (fun db => set_posts (List.filter (fun p => negb (p_id p >? 10000)) (posts db))
                              (next_post_id db) db);;;
  (* DELETE FROM comments WHERE id > 100000 *)
  update (fun db => set_comments (List.filter (fun c => negb (c_id c >? 100000)) (comments db))
                                 (next_comment_id db) db);;;
  (* UPDATE users SET del_flg = 0 *)
  update (fun db => set_users (map (set_del_flg 0) (users db)) (next_user_id db) db);;;
  (* UPDATE users SET del_flg = 1 WHERE id % 50 = 0 *)
  update (fun db => set_users
            (map (fun u => if Z.rem (u_id u) 50 =? 0 then set_del_flg 1 u else u) (users db))
            (next_user_id db) db).

(** GET /initialize *)
Definition get_initialize : flask response :=
  db_initialize;;;
  ret (Text EmptyString).

(** [image_url], the template global. *)
Definition image_url (p : post) : string :=
  let mime := p_mime p in
  let ext :=
    if String.eqb mime "image/jpeg" then ".jpg"
    else if String.eqb mime "image/png" then ".png"
    else if String.eqb mime "image/gif" then ".gif"
    else EmptyString in
  "/image/" +:+ Py.fmt_d (p_id p) +:+ ext.

(** What a page handler answers: a rendered template with the values handed
    to it, or a response of the kinds above. *)
Inductive page :=
| Login_html                                   (* render_template("login.html", me=None) *)
| Register_html                                (* render_template("register.html", me=None) *)
| Index_html (posts : list assembled_post) (me : option user)
| Posts_html (posts : list assembled_post)
| User_html (posts : list assembled_post) (profile : user)
            (post_count comment_count commented_count : Z) (me : option user)
| Plain (r : response).

Definition run_page (v : flask page) (w : world) : page * world :=
  match v w with
  | (Value p, w') => (p, w')
  | (Exit r, w') => (Plain r, w')
  end.

(** GET /login *)
Definition get_login : flask page :=
  me <- get_session_user;;
  match me with
  | Some _ => ret (Plain (Redirect "/"))
  | None => ret Login_html
  end.

(** GET /register *)
Definition get_register : flask page :=
  me <- get_session_user;;
  match me with
  | Some _ => ret (Plain (Redirect "/"))
  | None => ret Register_html
  end.

(** A row of a SELECT that leaves the imgdata column out. *)
Definition without_imgdata (p : post) : post :=
  Post (p_id p) (p_user_id p) (p_mime p) [] (p_body p) (p_created_at p).

(** ORDER BY created_at DESC *)
Definition newest_first (a b : post) : bool := p_created_at b <=? p_created_at a.

(** SELECT p.id, p.user_id, p.body, p.created_at, p.mime FROM posts p
    JOIN users u ON p.user_id = u.id WHERE u.del_flg = 0
    ORDER BY p.created_at DESC LIMIT %s *)
Definition select_index_posts (limit : Z) : flask (list post) :=
  query (fun db =>
    take (Z.to_nat limit)
      (order_by newest_first
         (flat_map
            (fun p => map (fun _ => without_imgdata p)
               (List.filter (fun u => (p_user_id p =? u_id u) && (u_del_flg u =? 0))
                            (users db)))
            (posts db)))).

(** GET / *)
Definition get_index : flask page :=
  me <- get_session_user;;
  results <- select_index_posts POSTS_PER_PAGE;;
  posts <- make_posts results false;;
  ret (Index_html posts me).

(** [datetime.datetime] down to the second. *)
Record datetime := Datetime {
  year : Z; month : Z; day : Z; hour : Z; minute : Z; second : Z
}.

Definition is_leap (y : Z) : bool :=
  (y mod 4 =? 0) && (negb (y mod 100 =? 0) || (y mod 400 =? 0)).

Definition days_in_month (y m : Z) : Z :=
  if m =? 2 then (if is_leap y then 29 else 28)
  else if (m =? 4) || (m =? 6) || (m =? 9) || (m =? 11) then 30
  else 31.

(** [datetime.datetime(y, m, d, h, mi, s)]; [None] is ValueError. *)
Definition datetime_new (y m d h mi s : Z) : option datetime :=
  if (1 <=? y) && (y <=? 9999) && (1 <=? m) && (m <=? 12)
     && (1 <=? d) && (d <=? days_in_month y m)
     && (0 <=? h) && (h <=? 23) && (0 <=? mi) && (mi <=? 59)
     && (0 <=? s) && (s <=? 59)
  then Some (Datetime y m d h mi s)
  else None.

(** [\d{n}] at the head of [s]: the number read and what follows.  Strings
    are taken byte-wise, so this is [\d] on ASCII text, where the digits
    are those of [0-9]. *)
Fixpoint digits (n : nat) (acc : Z) (s : string) : option (Z * string) :=
  match n with
  | O => Some (acc, s)
  | S n' =>
      match s with
      | String c s' =>
          if Py.is_digit c then digits n' (10 * acc + Py.digit_val c) s' else None
      | EmptyString => None
      end
  end.

(** One character of a class at the head of [s]. *)
Definition one_of (cls : ascii -> bool) (s : string) : option string :=
  match s with
  | String c s' => if cls c then Some s' else None
  | EmptyString => None
  end.

Definition is_char (c d : ascii) : bool := Ascii.eqb c d.
Definition is_date_time_sep (c : ascii) : bool :=
  Ascii.eqb c " " || Ascii.eqb c "t" || Ascii.eqb c "T".

(** [_parse_iso8601]: the pattern
    (\d{4})-(\d{2})-(\d{2})[ tT](\d{2}):(\d{2}):(\d{2}).* through [re.match],
    then [datetime.datetime] on the groups read by [int]; [None] is ValueError,
    raised by the function itself or by the constructor. *)
Definition _parse_iso8601 (s : string) : option datetime :=
  '(y, s) ← digits 4 0 s;
  s ← one_of (is_char "-") s;
  '(m, s) ← digits 2 0 s;
  s ← one_of (is_char "-") s;
  '(d, s) ← digits 2 0 s;
  s ← one_of is_date_time_sep s;
  '(h, s) ← digits 2 0 s;
  s ← one_of (is_char ":") s;
  '(mi, s) ← digits 2 0 s;
  s ← one_of (is_char ":") s;
  '(sec, _) ← digits 2 0 s;
  datetime_new y m d h mi sec.

Section Pages.

Variable account_name_eq : string -> string -> bool.
(** The store's reading of a bound datetime on the scale of created_at. *)
Variable timestamp : datetime -> Z.

(** SELECT `id`, `user_id`, `body`, `mime`, `created_at` FROM `posts`
    [WHERE `created_at` <= %s] ORDER BY `created_at` DESC LIMIT %s *)
Definition select_posts_page (max_created_at : option datetime) (limit : Z)
    : flask (list post) :=
  query (fun db =>
    take (Z.to_nat limit)
      (order_by newest_first
         (map without_imgdata
            (List.filter
               (fun p => match max_created_at with
                         | Some t => p_created_at p <=? timestamp t
                         | None => true
                         end)
               (posts db))))).

(** GET /posts; [max_created_at] is [flask.request.args.get("max_created_at")]. *)
Definition get_posts (max_created_at : option string) : flask page :=
  let max_created_at :=
    match max_created_at with
    | Some s => if String.eqb s EmptyString then None else Some s   (* ... or None *)
    | None => None
    end in
  results <-
    match max_created_at with
    | Some s =>
        match _parse_iso8601 s with
        | Some t => select_posts_page (Some t) POSTS_PER_PAGE
        | None => raise ValueError
        end
    | None => select_posts_page None POSTS_PER_PAGE
    end;;
  posts <- make_posts results false;;
  ret (Posts_html posts).

(** SELECT `id`, `user_id`, `body`, `mime`, `created_at` FROM `posts`
    WHERE `user_id` = %s ORDER BY `created_at` DESC LIMIT %s *)
Definition select_user_posts (user_id limit : Z) : flask (list post) :=
  query (fun db =>
    take (Z.to_nat limit)
      (order_by newest_first
         (map without_imgdata
            (List.filter (fun p => p_user_id p =? user_id) (posts db))))).

(** GET /@<account_name> *)
Definition get_user_list (account_name : string) : flask page :=
  user <- select_user_by_account_live account_name_eq account_name;;
  match user with
  | None => abort 404
  | Some user =>
      results <- select_user_posts (u_id user) POSTS_PER_PAGE;;
      listed <- make_posts results false;;
      (* SELECT COUNT( * ) AS count FROM `comments` WHERE `user_id` = %s *)
      comment_count <- query (fun db =>
        Z.of_nat (length (List.filter (fun c => c_user_id c =? u_id user) (comments db))));;
      (* SELECT `id` FROM `posts` WHERE `user_id` = %s *)
      post_ids <- query (fun db =>
        map p_id (List.filter (fun p => p_user_id p =? u_id user) (posts db)));;
      let post_count := Z.of_nat (length post_ids) in
      commented_count <-
        (if post_count >? 0 then
           (* SELECT COUNT( * ) AS count FROM `comments` WHERE `post_id` IN %s *)
           query (fun db =>
             Z.of_nat (length (List.filter (fun c => mem (c_post_id c) post_ids) (comments db))))
         else ret 0);;
      me <- get_session_user;;
      ret (User_html listed user post_count comment_count commented_count me)
  end.

End Pages.

(** ** Predicates and worlds used in the statements *)

(** The id of a post identifies its row (PRIMARY KEY). *)
Definition unique_post_ids (db : database) : Prop :=
  forall p q, In p (posts db) -> In q (posts db) -> p_id p = p_id q -> p = q.


(** The request with the field csrf_token set to [v]. *)
Definition with_csrf_field (v : string) (req : request) : request :=
  Request (("csrf_token", v) :: form req) (files req).

(** A session left over from an account that the store no longer has: it
    still holds its token, and resolves to no user. *)
Definition stale : world :=
  World Sample.db (Session (Some 1001) (Some "st4le") []) [].

(** Every id of [ids] is a key of the two dictionaries of step 3. *)
Definition covers (ids : list Z) (t : comment_tables) : Prop :=
  forall i, mem i ids = true -> is_Some (fst t !! i) /\ is_Some (snd t !! i).

(** The user map that steps 1 and 2 of [make_posts] fetch for [results]. *)
Definition batch_users (results : list post) (all_comments : bool) (w : world)
    : gmap Z user :=
  match fetch_related results all_comments w with
  | (Value (_, users_by_id), _) => users_by_id
  | (Exit _, _) => ∅
  end.

(** [u] is a stored user row with the id of the owner of [p] and del_flg 0. *)
Definition has_live_owner (db : database) (p : post) (u : user) : Prop :=
  In u (users db) /\ u_id u = p_user_id p /\ u_del_flg u = 0.

(** No stored user row has the id of the owner of [p], or one that has it
    has a del_flg other than 0. *)
Definition has_dead_owner (db : database) (p : post) : Prop :=
  (forall u, In u (users db) -> u_id u <> p_user_id p)
  \/ (exists u, In u (users db) /\ u_id u = p_user_id p /\ u_del_flg u <> 0).



(** ** Text on which the helpers above are Python's

    [Py.int] and [digits] read bytes.  On ASCII text of at most 4300
    characters [Py.int] is [int()], and on ASCII text [digits] is [\d]. *)

Definition is_ascii (c : ascii) : bool := (nat_of_ascii c <? 128)%nat.

(** ASCII text. *)
Definition ascii_text (s : string) : bool := Py.all_in is_ascii s.

(** ASCII text of at most 4300 characters. *)
Definition plain (s : string) : bool :=
  ascii_text s && (String.length s <=? 4300)%nat.

(** Every value that the form holds under [key] is plain. *)
Definition plain_field (req : request) (key : string) : Prop :=
  forall v, In (key, v) (form req) -> plain v = true.

(** A character that [int] does not strip. *)
Definition not_space (c : ascii) : bool := negb (Py.is_space c).

(** A computation that changes neither the store nor the user and the token
    that the session holds. *)
Definition read_only {A} (m : flask A) : Prop :=
  forall w,
    w_db (snd (m w)) = w_db w
    /\ s_user (w_session (snd (m w))) = s_user (w_session w)
    /\ s_csrf_token (w_session (snd (m w))) = s_csrf_token (w_session w).

(** What the two dictionaries of step 3 hold after [N] comments taken from
    [pool]: under each post id, comments of that post taken from the pool,
    three at most unless all are asked for, and no more of them than the
    count kept for the post, which is at most [N]. *)
Definition tables_ok (all_comments : bool) (pool : list comment) (N : Z)
    (t : comment_tables) : Prop :=
  (forall k l, fst t !! k = Some l ->
     Forall (fun c => c_post_id (ac_row c) = k /\ In (ac_row c) pool) l
     /\ (all_comments = false -> (length l <= 3)%nat)
     /\ exists n, snd t !! k = Some n /\ Z.of_nat (length l) <= n)
  /\ (forall k n, snd t !! k = Some n -> 0 <= n <= N).

(** The id of a user identifies its row (PRIMARY KEY). *)
Definition unique_user_ids (db : database) : Prop :=
  forall u v, In u (users db) -> In v (users db) -> u_id u = u_id v -> u = v.

(** [a] was created no earlier than [b]. *)
Definition newer_or_same (a b : post) : Prop := p_created_at b <= p_created_at a.

(** A reading of datetimes for the sample store, whose clock counts the
    seconds of one day. *)
Definition sample_timestamp (t : datetime) : Z :=
  (hour t * 60 + minute t) * 60 + second t.

(** The AUTO_INCREMENT counter of the posts table is above every stored id. *)
Definition fresh_post_ids (db : database) : Prop :=
  forall p, In p (posts db) -> p_id p < next_post_id db.

(** * Properties of the handlers *)

Example int_plain : Py.int "42" = Some 42. Proof. reflexivity. Qed.
Example int_padded : Py.int " 7 " = Some 7. Proof. reflexivity. Qed.
Example int_signed : Py.int "-12" = Some (-12). Proof. reflexivity. Qed.
Example int_underscore : Py.int "1_000" = Some 1000. Proof. reflexivity. Qed.
Example int_bad_suffix : Py.int "12abc" = None. Proof. reflexivity. Qed.
Example int_bad_underscore : Py.int "1__0" = None. Proof. reflexivity. Qed.
Example int_empty : Py.int EmptyString = None. Proof. reflexivity. Qed.
Example fmt_d_12 : Py.fmt_d 12 = "12". Proof. reflexivity. Qed.
Example fmt_d_neg : Py.fmt_d (-5) = "-5". Proof. reflexivity. Qed.

(** ** Rows fetched from a table *)

Lemma fetchone_filter_some {A} (f : A -> bool) (l : list A) (x : A) :
  fetchone (List.filter f l) = Some x -> In x l /\ f x = true.
Proof.
  unfold fetchone. induction l as [|y l IH]; simpl; [discriminate|].
  destruct (f y) eqn:Hy; simpl.
  - intros [= ->]. auto.
  - intros H. destruct (IH H). auto.
Qed.

Lemma fetchone_filter_none {A} (f : A -> bool) (l : list A) :
  fetchone (List.filter f l) = None -> forall x, In x l -> f x = false.
Proof.
  unfold fetchone. induction l as [|y l IH]; simpl; [tauto|].
  destruct (f y) eqn:Hy; simpl; [discriminate|].
  intros H x [<-|Hx]; auto.
Qed.

(** With a key that identifies rows, the fetched row is the stored one. *)
Lemma fetchone_filter_unique {A} (key : A -> Z) (l : list A) (x : A) :
  (forall y z, In y l -> In z l -> key y = key z -> y = z) ->
  In x l ->
  fetchone (List.filter (fun y => key y =? key x) l) = Some x.
Proof.
  unfold fetchone. induction l as [|y l IH]; simpl; [tauto|].
  intros Huniq Hx. destruct (Z.eqb_spec (key y) (key x)) as [E|E]; simpl.
  - f_equal. apply Huniq; auto.
  - destruct Hx as [->|Hx]; [congruence|]. apply IH; auto.
Qed.

(** ** C1: the session accessor *)

(** C1 (as amended).  [get_session_user] answers none without asking the
    store when the session holds no user; otherwise it asks the store once
    for the row whose id is the session's and returns the first such row,
    whatever its del_flg, or none when no row has that id.  The store and the
    session are left as they were. *)
Theorem get_session_user_resolves (w : world) :
  match s_user (w_session w) with
  | None => get_session_user w = (Value None, w)
  | Some i =>
      exists r,
        get_session_user w
          = (Value r, with_log (fun l => l ++ [Select_user_by_id i]) w)
        /\ match r with
           | Some u => In u (users (w_db w)) /\ u_id u = i
           | None => forall u, In u (users (w_db w)) -> u_id u <> i
           end
  end.
Proof.
  unfold get_session_user, gets, bind.
  destruct (s_user (w_session w)) as [i|]; [|reflexivity].
  unfold select_user_by_id, execute, modify, gets, bind, ret. simpl.
  eexists. split; [reflexivity|].
  destruct (fetchone _) as [u|] eqn:E.
  - apply fetchone_filter_some in E as [Hin Hid]. split; [exact Hin|lia].
  - intros u Hu. apply (fetchone_filter_none _ _ E) in Hu. lia.
Qed.

(** C1 (counterexample).  Bob is banned (del_flg = 1) and his session still
    resolves to his row. *)
Lemma get_session_user_returns_banned_row :
  fst (get_session_user Sample.as_bob) = Value (Some Sample.bob)
  /\ u_del_flg Sample.bob = 1.
Proof. split; reflexivity. Qed.

(** ** C3: the admin pages *)

(** Without a session user the redirect is built and dropped, and reading
    the authority of [None] raises. *)
Lemma get_banned_without_user (w : world) :
  s_user (w_session w) = None -> run_view get_banned w = (Crash TypeError, w).
Proof.
  intros H. unfold run_view, get_banned, get_session_user, gets, bind, discard, ret, raise.
  rewrite H. reflexivity.
Qed.

Lemma post_banned_without_user (req : request) (w : world) :
  s_user (w_session w) = None -> run_view (post_banned req) w = (Crash TypeError, w).
Proof.
  intros H. unfold run_view, post_banned, get_session_user, gets, bind, discard, ret, raise.
  rewrite H. reflexivity.
Qed.

(** A session user without authority is refused with 403 by both handlers,
    and nothing but the session lookup reaches the store. *)
Lemma banned_forbidden (req : request) (w w1 : world) (me : user) :
  get_session_user w = (Value (Some me), w1) ->
  u_authority me = 0 ->
  run_view get_banned w = (Abort 403, w1)
  /\ run_view (post_banned req) w = (Abort 403, w1).
Proof.
  intros H Ha.
  unfold run_view, get_banned, post_banned, bind, discard, ret, abort.
  rewrite H. simpl. rewrite Ha. simpl. auto.
Qed.

(** C3 (the code at the failing input).  An anonymous GET or POST of
    /admin/banned ends in an uncaught TypeError (a 500), not in a redirect to
    the login page. *)
Theorem banned_anonymous_crashes :
  run_view get_banned Sample.anonymous = (Crash TypeError, Sample.anonymous)
  /\ run_view (post_banned (Request [("csrf_token", "x"); ("uid", "2")] []))
       Sample.anonymous
     = (Crash TypeError, Sample.anonymous).
Proof. split; reflexivity. Qed.

(** ** C4: serving an image *)


Lemma int_nonempty (id : string) (n : Z) :
  Py.int id = Some n -> String.eqb id EmptyString = false.
Proof. destruct id; [discriminate|reflexivity]. Qed.


Lemma sample_unique_post_ids : unique_post_ids Sample.db.
Proof.
  intros p q [<-|[<-|[]]] [<-|[<-|[]]]; simpl; intros H;
    first [reflexivity | discriminate H].
Qed.



(** ** C2: the CSRF token *)

(** Resolving the session user changes neither the store nor the session. *)
Lemma get_session_user_frame (w w1 : world) (r : outcome (option user)) :
  get_session_user w = (r, w1) ->
  w_db w1 = w_db w /\ w_session w1 = w_session w.
Proof.
  unfold get_session_user, select_user_by_id, execute, modify, gets, bind, ret.
  destruct (s_user (w_session w)); simpl; intros [= <- <-]; auto.
Qed.

(** With a session token and a submitted token that differ, the comparison
    of the handlers says so. *)
Lemma csrf_mismatch_detects (req : request) (w : world) (submitted stored : string) :
  form_get req "csrf_token" = Some submitted ->
  s_csrf_token (w_session w) = Some stored ->
  csrf_mismatch req w = (Value (negb (String.eqb submitted stored)), w).
Proof.
  intros Hf Hs. unfold csrf_mismatch, form_item, session_csrf_token, gets, bind, ret.
  rewrite Hf. simpl. rewrite Hs. reflexivity.
Qed.

(** C2 (as amended).  Once the session resolves to a user, POST / and
    POST /comment compare the submitted csrf_token with the session's and
    answer 422 when they differ, and so does POST /admin/banned for a user
    whose authority is not 0; nothing is inserted or updated and the session
    is untouched.  POST /register and POST /login do not look at the
    submitted token: whatever it is, they behave the same. *)
Theorem csrf_checked_once_authenticated
    (digest : string -> string) (account_name_eq : string -> string -> bool)
    (req : request) (w w1 : world) (me : user) (submitted stored : string) :
  get_session_user w = (Value (Some me), w1) ->
  form_get req "csrf_token" = Some submitted ->
  s_csrf_token (w_session w) = Some stored ->
  submitted <> stored ->
  (run_view (post_index req) w = (Abort 422, w1)
   /\ run_view (post_comment req) w = (Abort 422, w1)
   /\ (u_authority me <> 0 -> run_view (post_banned req) w = (Abort 422, w1)))
  /\ w_db w1 = w_db w /\ w_session w1 = w_session w
  /\ (forall (r : request) (v token : string) (w0 : world),
        post_register digest account_name_eq (with_csrf_field v r) token w0
          = post_register digest account_name_eq r token w0
        /\ post_login digest account_name_eq (with_csrf_field v r) token w0
          = post_login digest account_name_eq r token w0).
Proof.
  intros Hme Hf Hs Hne.
  destruct (get_session_user_frame _ _ _ Hme) as [Hdb Hsess].
  assert (Hbad : csrf_mismatch req w1 = (Value true, w1)).
  { rewrite (csrf_mismatch_detects req w1 submitted stored Hf); [|congruence].
    destruct (String.eqb_spec submitted stored); [contradiction|reflexivity]. }
  repeat split; auto.
  - unfold run_view, post_index, bind. rewrite Hme, Hbad. reflexivity.
  - unfold run_view, post_comment, bind. rewrite Hme, Hbad. reflexivity.
  - intros Ha. unfold run_view, post_banned, bind, ret. rewrite Hme. simpl.
    destruct (Z.eqb_spec (u_authority me) 0); [contradiction|].
    rewrite Hbad. reflexivity.
Qed.

(** Alice submits a token that is not her session's. *)
Lemma csrf_checked_once_authenticated_witness :
  run_view (post_comment
              (Request [("csrf_token", "forged"); ("post_id", "1"); ("comment", "hi")] []))
           Sample.as_alice
    = (Abort 422, with_log (fun l => l ++ [Select_user_by_id 2]) Sample.as_alice).
Proof.
  refine (proj1 (proj2 (proj1 (csrf_checked_once_authenticated
            Sample.digest Sample.account_name_eq
            (Request [("csrf_token", "forged"); ("post_id", "1"); ("comment", "hi")] [])
            Sample.as_alice _ Sample.alice "forged" "a11ce" _ _ _ _)))).
  - reflexivity.
  - reflexivity.
  - reflexivity.
  - discriminate.
Defined.

(** C2 (counterexample).  POST /register with a csrf_token that is not the
    session's: no 422, the account is inserted. *)
Lemma post_register_ignores_csrf :
  let req := Request [("csrf_token", "forged"); ("account_name", "carol1");
                      ("password", "passw0rd")] [] in
  let out := run_view (post_register Sample.digest Sample.account_name_eq req "t0k3n") stale in
  s_csrf_token (w_session stale) = Some "st4le"
  /\ form_get req "csrf_token" = Some "forged"
  /\ fst out = Redirect "/"
  /\ users (w_db (snd out))
     = users Sample.db
       ++ [User 4 "carol1" (calculate_passhash Sample.digest "carol1" "passw0rd") 0 0 1000].
Proof. repeat split; reflexivity. Qed.

(** ** C5: the post id of a comment *)

(** C5 (the code at the failing input).  The post_id "1 " (a digit and a
    space) is not a string of digits; it passes the [re.match] test, is
    converted by [int] to 1, and the comment is inserted. *)
Theorem post_comment_accepts_padded_post_id :
  let req := Request [("csrf_token", "a11ce"); ("post_id", "1 "); ("comment", "hi")] [] in
  let out := run_view (post_comment req) Sample.as_alice in
  Py.all_in Py.is_digit "1 " = false
  /\ fst out = Redirect "/posts/1"
  /\ comments (w_db (snd out)) = comments Sample.db ++ [Comment 3 1 2 "hi" 1000].
Proof. repeat split; reflexivity. Qed.

(** A digit followed by letters passes the test too, and [int] raises. *)
Example post_comment_crashes_on_suffix :
  run_view (post_comment
              (Request [("csrf_token", "a11ce"); ("post_id", "12abc"); ("comment", "hi")] []))
           Sample.as_alice
    = (Crash ValueError, with_log (fun l => l ++ [Select_user_by_id 2]) Sample.as_alice).
Proof. reflexivity. Qed.

(** A post_id that does not start with a digit is refused with the message,
    and no comment is inserted. *)
Lemma post_comment_rejects_non_digit_start
    (req : request) (w w1 : world) (me : user) (tok post_id : string) :
  get_session_user w = (Value (Some me), w1) ->
  form_get req "csrf_token" = Some tok ->
  s_csrf_token (w_session w) = Some tok ->
  form_get req "post_id" = Some post_id ->
  Py.re_match_repeat Py.is_digit 1 post_id = false ->
  run_view (post_comment req) w = (Text "post_idは整数のみです", w1).
Proof.
  intros Hme Hf Hs Hp Hre.
  destruct (get_session_user_frame _ _ _ Hme) as [_ Hsess].
  unfold run_view, post_comment, bind.
  rewrite Hme, (csrf_mismatch_detects req w1 tok tok Hf) by congruence.
  rewrite String.eqb_refl. simpl. unfold form_item. rewrite Hp. simpl.
  rewrite Hre. reflexivity.
Qed.

(** ** C6: validation at registration *)

(** C6 (the code at the failing input).  The account name "abc!" is not
    alphanumeric and the password "secret!" is not made of [0-9a-zA-Z_];
    both pass [validate_user], the account is inserted and the session is
    established. *)
Theorem post_register_accepts_unclean_credentials :
  let req := Request [("account_name", "abc!"); ("password", "secret!")] [] in
  let out := run_view (post_register Sample.digest Sample.account_name_eq req "t0k3n")
                      Sample.anonymous in
  Py.all_in Py.is_alnum "abc!" = false
  /\ Py.all_in Py.is_word "secret!" = false
  /\ validate_user "abc!" "secret!" = true
  /\ fst out = Redirect "/"
  /\ users (w_db (snd out))
     = users Sample.db
       ++ [User 4 "abc!" (calculate_passhash Sample.digest "abc!" "secret!") 0 0 1000]
  /\ s_user (w_session (snd out)) = Some 4.
Proof. repeat split; reflexivity. Qed.

(** When [validate_user] refuses the pair, the handler flashes its message
    and redirects to /register; the store and the session user are as they
    were. *)
Lemma post_register_rejects_invalid
    (digest : string -> string) (account_name_eq : string -> string -> bool)
    (req : request) (token : string) (w w1 : world) (account_name password : string) :
  get_session_user w = (Value None, w1) ->
  form_get req "account_name" = Some account_name ->
  form_get req "password" = Some password ->
  validate_user account_name password = false ->
  exists w2,
    run_view (post_register digest account_name_eq req token) w = (Redirect "/register", w2)
    /\ w_db w2 = w_db w
    /\ s_user (w_session w2) = s_user (w_session w)
    /\ s_flashes (w_session w2)
       = s_flashes (w_session w)
         ++ ["アカウント名は3文字以上、パスワードは6文字以上である必要があります"].
Proof.
  intros Hme Ha Hp Hv.
  destruct (get_session_user_frame _ _ _ Hme) as [Hdb Hsess].
  unfold run_view, post_register, bind, form_item. rewrite Hme, Ha. simpl.
  rewrite Hp. simpl. rewrite Hv. simpl.
  eexists. split; [reflexivity|]. simpl. rewrite Hdb, Hsess. auto.
Qed.

(** ** C10: the size of an upload *)

(** What POST / does with a file that is present and of a supported type,
    for an authenticated request carrying the session's token. *)
Lemma post_index_upload
    (req : request) (w w1 : world) (me : user) (tok : string) (file : file_storage) :
  get_session_user w = (Value (Some me), w1) ->
  form_get req "csrf_token" = Some tok ->
  s_csrf_token (w_session w) = Some tok ->
  files_get req "file" = Some file ->
  filename file <> EmptyString ->
  supported_mime (mimetype file) = true ->
  run_view (post_index req) w
  = if Z.of_nat (length (stream file)) >? UPLOAD_LIMIT
    then (Redirect "/",
          with_session (fun s => Session (s_user s) (s_csrf_token s)
                                   (s_flashes s ++ ["ファイルサイズが大きすぎます"])) w1)
    else (Redirect ("/posts/" +:+ Py.fmt_d (next_post_id (w_db w))),
          with_db (set_posts
                     (posts (w_db w)
                      ++ [Post (next_post_id (w_db w)) (u_id me) (mimetype file)
                               (stream file) (form_get req "body") (now (w_db w))])
                     (next_post_id (w_db w) + 1))
            (with_log (fun l => l ++ [Insert_post (u_id me) (mimetype file)
                                        (stream file) (form_get req "body")]) w1)).
Proof.
  intros Hme Hf Hs Hfile Hname Hmime.
  destruct (get_session_user_frame _ _ _ Hme) as [Hdb Hsess].
  unfold run_view, post_index, bind.
  rewrite Hme, (csrf_mismatch_detects req w1 tok tok Hf) by congruence.
  rewrite String.eqb_refl. simpl. rewrite Hfile. simpl.
  destruct (String.eqb_spec (filename file) EmptyString) as [|_]; [contradiction|].
  simpl. rewrite Hmime. simpl.
  destruct (Z.of_nat (length (stream file)) >? UPLOAD_LIMIT); simpl.
  - reflexivity.
  - unfold insert_post, execute, modify, gets, bind, ret. simpl.
    rewrite Hdb. reflexivity.
Qed.

(** C10.  For an authenticated upload with the session's token whose file is
    present and declared as one of the three image types: a file of more
    than 10 MiB is refused and the posts table is left as it was; a file of
    at most 10 MiB, and so one of exactly 10 MiB, is inserted as a new post
    and the answer is the redirect to its page. *)
Theorem upload_limit_is_inclusive
    (req : request) (w w1 : world) (me : user) (tok : string) (file : file_storage) :
  get_session_user w = (Value (Some me), w1) ->
  form_get req "csrf_token" = Some tok ->
  s_csrf_token (w_session w) = Some tok ->
  files_get req "file" = Some file ->
  filename file <> EmptyString ->
  supported_mime (mimetype file) = true ->
  let size := Z.of_nat (length (stream file)) in
  let out := run_view (post_index req) w in
  UPLOAD_LIMIT = 10 * 1024 * 1024
  /\ (size > UPLOAD_LIMIT ->
      fst out = Redirect "/" /\ w_db (snd out) = w_db w)
  /\ (size <= UPLOAD_LIMIT ->
      fst out = Redirect ("/posts/" +:+ Py.fmt_d (next_post_id (w_db w)))
      /\ posts (w_db (snd out))
         = posts (w_db w)
           ++ [Post (next_post_id (w_db w)) (u_id me) (mimetype file)
                    (stream file) (form_get req "body") (now (w_db w))]).
Proof.
  intros Hme Hf Hs Hfile Hname Hmime size out.
  destruct (get_session_user_frame _ _ _ Hme) as [Hdb Hsess].
  subst out. rewrite (post_index_upload req w w1 me tok file) by assumption.
  fold size. split; [reflexivity|]. split; intros Hsize.
  - destruct (Z.gtb_spec size UPLOAD_LIMIT); [|lia]. simpl. auto.
  - destruct (Z.gtb_spec size UPLOAD_LIMIT); [lia|]. simpl. auto.
Qed.

(** Alice uploads a four-byte PNG. *)
Lemma upload_limit_is_inclusive_witness :
  let req := Request [("csrf_token", "a11ce"); ("body", "sunset")]
                     [("file", FileStorage "sunset.png" "image/png" Sample.png_bytes)] in
  fst (run_view (post_index req) Sample.as_alice) = Redirect "/posts/3"
  /\ posts (w_db (snd (run_view (post_index req) Sample.as_alice)))
     = posts Sample.db ++ [Post 3 2 "image/png" Sample.png_bytes (Some "sunset") 1000].
Proof.
  intros req.
  refine (proj2 (proj2 (upload_limit_is_inclusive req Sample.as_alice _ Sample.alice "a11ce"
            (FileStorage "sunset.png" "image/png" Sample.png_bytes) _ _ _ _ _ _)) _).
  - reflexivity.
  - reflexivity.
  - reflexivity.
  - reflexivity.
  - discriminate.
  - reflexivity.
  - vm_compute. discriminate.
Defined.

(** ** C9: the queries of post assembly *)

(** Steps 1 and 2 always answer, leave the store and the session alone and
    hand one or two statements to the store. *)
Lemma fetch_related_runs (results : list post) (all_comments : bool) (w : world) :
  exists cs users_by_id qs,
    fetch_related results all_comments w
      = (Value (cs, users_by_id), World (w_db w) (w_session w) (w_log w ++ qs))
    /\ (length qs <= 2)%nat
    /\ (forall c, In c cs -> mem (c_post_id c) (map p_id results) = true)
    /\ users_by_id
       = foldl (fun (m : gmap Z user) u => <[u_id u := u]> m) ∅
           (List.filter
              (fun u => mem (u_id u)
                 (elements (list_to_set (map p_user_id results)
                            ∪ list_to_set (map c_user_id cs) : gset Z)))
              (users (w_db w))).
Proof.
  unfold fetch_related, select_comments_in, select_users_in, execute, modify,
    gets, bind, ret. simpl.
  set (cs := take _ _).
  assert (Hcs : forall c, In c cs -> mem (c_post_id c) (map p_id results) = true).
  { intros c Hc. subst cs. apply list_elem_of_In, subseteq_take, list_elem_of_In in Hc.
    assert (Hin : forall (l : list comment) x, In x (order_by comment_order l) -> In x l).
    { clear. induction l as [|y l IH]; simpl; [tauto|]. intros x Hx.
      assert (Hins : forall (k : list comment) a b, In a (insert_by comment_order b k) ->
                       a = b \/ In a k).
      { clear. induction k as [|z k IHk]; simpl; intros a b Ha.
        - destruct Ha as [->|[]]. auto.
        - destruct (comment_order b z); simpl in Ha.
          + destruct Ha as [->|[->|Ha]]; auto.
          + destruct Ha as [->|Ha]; auto. apply IHk in Ha as [->|Ha]; auto. }
      apply Hins in Hx as [->|Hx]; auto. }
    apply Hin, filter_In in Hc. tauto. }
  destruct (elements _) as [|i ids] eqn:E.
  - exists cs, ∅, [Select_comments_in (map p_id results)
                     (if all_comments then 20
                      else Z.min (Z.of_nat (length (map p_id results)) * 3) 20)].
    split; [reflexivity|]. split; [simpl; lia|]. split; [exact Hcs|].
    rewrite E. induction (users (w_db w)) as [|u us IHus]; simpl; auto.
  - eexists cs, _, [_; _]. split; [|split; [simpl; lia|split; [exact Hcs|rewrite E; reflexivity]]].
    unfold with_log. simpl. rewrite <- app_assoc. reflexivity.
Qed.

(** The two dictionaries of step 3 have every post id as a key, and
    attaching comments keeps the keys. *)
Lemma mem_In (x : Z) (l : list Z) : mem x l = true <-> In x l.
Proof.
  unfold mem. rewrite existsb_exists. split.
  - intros (y & Hy & E). apply Z.eqb_eq in E. congruence.
  - intros H. exists x. split; [exact H|apply Z.eqb_refl].
Qed.

Lemma init_comment_tables_covers (ids : list Z) : covers ids (init_comment_tables ids).
Proof.
  unfold init_comment_tables.
  assert (H : forall (l : list Z) (t : comment_tables) i,
             In i l \/ (is_Some (fst t !! i) /\ is_Some (snd t !! i)) ->
             let t' := foldl (fun (t : comment_tables) post_id =>
                                (<[post_id := []]> (fst t), <[post_id := 0]> (snd t))) t l in
             is_Some (fst t' !! i) /\ is_Some (snd t' !! i)).
  { induction l as [|j l IH]; simpl; intros t i Hi.
    - destruct Hi as [[]|Hi]; exact Hi.
    - apply IH. simpl. destruct (decide (j = i)) as [->|Hne].
      + right. rewrite !lookup_insert_eq. eauto.
      + destruct Hi as [[Hj|Hi]|Hi]; [contradiction|auto|].
        right. rewrite !lookup_insert_ne by exact Hne. exact Hi. }
  intros i Hi. apply mem_In in Hi. apply H. auto.
Qed.

Lemma attach_comments_total (all_comments : bool) (users_by_id : gmap Z user)
    (ids : list Z) (cs : list comment) (t : comment_tables) :
  covers ids t ->
  (forall c, In c cs -> mem (c_post_id c) ids = true) ->
  is_Some (attach_comments all_comments users_by_id cs t).
Proof.
  revert t. induction cs as [|c cs IH]; simpl; intros t Hcov Hcs; [eauto|].
  destruct (Hcov (c_post_id c)) as [[kept Hk] [n Hn]]; [auto|].
  unfold attach_comment. rewrite Hn, Hk.
  destruct (all_comments || (length kept <? 3)%nat); apply IH; auto;
    intros i Hi; destruct (Hcov i Hi) as [H1 H2]; simpl;
    (destruct (decide (c_post_id c = i)) as [->|Hne];
     [rewrite ?lookup_insert_eq; eauto
     |rewrite ?lookup_insert_ne by exact Hne; auto]).
Qed.

(** [make_posts] always answers with a list, asks the store at most twice
    and changes neither the store nor the session. *)
Lemma make_posts_runs (results : list post) (all_comments : bool) (w : world) :
  exists posts qs,
    make_posts results all_comments w
      = (Value posts, World (w_db w) (w_session w) (w_log w ++ qs))
    /\ (length qs <= 2)%nat
    /\ (results = [] -> posts = [] /\ qs = []).
Proof.
  destruct results as [|p results].
  - exists [], []. simpl. unfold ret. rewrite app_nil_r. destruct w; auto.
  - unfold make_posts, bind.
    destruct (fetch_related_runs (p :: results) all_comments w)
      as (cs & ubi & qs & -> & Hlen & Hcs & _).
    destruct (attach_comments_total all_comments ubi (map p_id (p :: results)) cs
                (init_comment_tables (map p_id (p :: results)))
                (init_comment_tables_covers _) Hcs) as [[cbp cnt] ->].
    destruct (finish_posts ubi cnt (p :: results) cbp) as [kept final].
    unfold ret. eexists _, qs. repeat split; auto; discriminate.
Qed.

(** C9.  Whatever the posts handed to it, [make_posts] hands at most three
    statements to the store (it hands at most two) and changes no table; for
    no posts it answers the empty list and the world, its log included, is
    as before. *)
Theorem make_posts_query_budget (results : list post) (all_comments : bool) (w : world) :
  (exists posts w' qs,
     make_posts results all_comments w = (Value posts, w')
     /\ w_log w' = w_log w ++ qs
     /\ (length qs <= 3)%nat
     /\ w_db w' = w_db w)
  /\ make_posts [] all_comments w = (Value [], w).
Proof.
  split; [|reflexivity].
  destruct (make_posts_runs results all_comments w) as (posts & qs & -> & Hlen & _).
  eexists _, _, qs. repeat split. simpl. lia.
Qed.

(** ** C7: posts of missing or banned owners *)

(** The loop of step 4 keeps the posts with a live owner, in their order. *)
Lemma finish_posts_keeps (users_by_id : gmap Z user) (counts : gmap Z Z)
    (results : list post) (cbp : gmap Z (list assembled_comment)) :
  let kept := fst (finish_posts users_by_id counts results cbp) in
  map pp_row kept = List.filter (owner_live users_by_id) results
  /\ Forall (fun pp => pp_user pp = users_by_id !! p_user_id (pp_row pp)) kept.
Proof.
  revert cbp. induction results as [|p results IH]; simpl; intros cbp; [auto|].
  specialize (IH (alter (@rev assembled_comment) (p_id p) cbp)).
  destruct (finish_posts users_by_id counts results _) as [kept final].
  simpl in *. destruct IH as [IH1 IH2].
  destruct (owner_live users_by_id p); simpl; [|auto].
  split; [f_equal; exact IH1|]. constructor; [reflexivity|exact IH2].
Qed.

(** What the dictionary built from the fetched user rows holds. *)
Lemma users_by_id_keeps_keys (rows : list user) (m : gmap Z user) (i : Z) :
  is_Some (m !! i) ->
  is_Some (foldl (fun (m : gmap Z user) u => <[u_id u := u]> m) m rows !! i).
Proof.
  revert m. induction rows as [|r rows IH]; simpl; intros m Hm; [exact Hm|].
  apply IH. destruct (decide (u_id r = i)) as [->|Hne].
  - rewrite lookup_insert_eq. eauto.
  - rewrite lookup_insert_ne by exact Hne. exact Hm.
Qed.

Lemma users_by_id_lookup (rows : list user) (m : gmap Z user) (i : Z) :
  let m' := foldl (fun (m : gmap Z user) u => <[u_id u := u]> m) m rows in
  (forall u, m' !! i = Some u -> (In u rows /\ u_id u = i) \/ m !! i = Some u)
  /\ (m' !! i = None -> forall u, In u rows -> u_id u <> i).
Proof.
  revert m. induction rows as [|r rows IH]; simpl; intros m.
  - split; [auto|tauto].
  - destruct (IH (<[u_id r := r]> m)) as [IH1 IH2]. split.
    + intros u Hu. apply IH1 in Hu as [[Hin Hid]|Hu]; [auto|].
      destruct (decide (u_id r = i)) as [E|E].
      * rewrite E, lookup_insert_eq in Hu. injection Hu as <-. auto.
      * rewrite lookup_insert_ne in Hu by exact E. auto.
    + intros Hnone u [<-|Hin]; [|apply IH2; auto].
      intros E.
      destruct (users_by_id_keeps_keys rows (<[u_id r := r]> m) i) as [x Hx].
      * rewrite E, lookup_insert_eq. eauto.
      * rewrite Hnone in Hx. discriminate Hx.
Qed.

(** The owner of a post handed to [make_posts] is among the ids asked for. *)
Lemma owner_id_is_fetched (results : list post) (cs : list comment) (p : post) :
  In p results ->
  mem (p_user_id p)
      (elements (list_to_set (map p_user_id results)
                 ∪ list_to_set (map c_user_id cs) : gset Z)) = true.
Proof.
  intros Hp. apply mem_In, list_elem_of_In, elem_of_elements, elem_of_union.
  left. apply elem_of_list_to_set, list_elem_of_In, in_map. exact Hp.
Qed.

(** [make_posts] answers the posts whose owner is live in the fetched user
    map, in the order they came in, each with its owner attached. *)
Lemma make_posts_spec (results : list post) (all_comments : bool) (w : world) :
  let users_by_id := batch_users results all_comments w in
  exists posts qs,
    make_posts results all_comments w
      = (Value posts, World (w_db w) (w_session w) (w_log w ++ qs))
    /\ map ap_row posts = List.filter (owner_live users_by_id) results
    /\ Forall (fun ap => exists u,
                 ap_user ap = Some u
                 /\ users_by_id !! p_user_id (ap_row ap) = Some u
                 /\ has_live_owner (w_db w) (ap_row ap) u) posts
    /\ (forall p, In p results -> owner_live users_by_id p = false ->
          has_dead_owner (w_db w) p).
Proof.
  destruct results as [|p0 results].
  - exists [], []. simpl. unfold ret. rewrite app_nil_r. destruct w.
    repeat split; auto. intros p [].
  - set (R := p0 :: results). unfold batch_users.
    assert (Hmk : make_posts R all_comments
                  = (fetched <- fetch_related R all_comments;;
                     let '(all_related_comments, users_by_id) := fetched in
                     match attach_comments all_comments users_by_id all_related_comments
                             (init_comment_tables (map p_id R)) with
                     | None => raise (KeyError "post_id")
                     | Some (comments_by_post_id, comment_counts) =>
                         let '(kept, final) :=
                           finish_posts users_by_id comment_counts R comments_by_post_id in
                         ret (map (resolve final) kept)
                     end)) by reflexivity.
    rewrite Hmk. clear Hmk. unfold bind.
    destruct (fetch_related_runs R all_comments w)
      as (cs & ubi & qs & -> & Hlen & Hcs & Hubi).
    destruct (attach_comments_total all_comments ubi (map p_id R) cs
                (init_comment_tables (map p_id R))
                (init_comment_tables_covers _) Hcs) as [[cbp cnt] ->].
    pose proof (finish_posts_keeps ubi cnt R cbp) as Hkeep.
    destruct (finish_posts ubi cnt R cbp) as [kept final]. cbv zeta in Hkeep. cbn [fst] in Hkeep.
    destruct Hkeep as [Hrows Huser].
    assert (Hfound : forall i u, ubi !! i = Some u -> In u (users (w_db w)) /\ u_id u = i).
    { intros i u Hu. rewrite Hubi in Hu.
      apply users_by_id_lookup in Hu as [[Hin Hid]|Hu].
      - apply filter_In in Hin. tauto.
      - rewrite lookup_empty in Hu. discriminate Hu. }
    assert (Hmissing : forall p, In p R -> ubi !! p_user_id p = None ->
                         forall u, In u (users (w_db w)) -> u_id u <> p_user_id p).
    { intros p Hp Hnone u Hu E. rewrite Hubi in Hnone.
      refine (proj2 (users_by_id_lookup _ ∅ (p_user_id p)) Hnone u _ E).
      apply filter_In. split; [exact Hu|]. rewrite E.
      apply owner_id_is_fetched. exact Hp. }
    exists (map (resolve final) kept), qs. unfold ret. split; [reflexivity|].
    split; [|split].
    + rewrite map_map. simpl. exact Hrows.
    + apply List.Forall_forall. intros ap Hap.
      apply in_map_iff in Hap as (pp & <- & Hpp). simpl.
      assert (Hlive : owner_live ubi (pp_row pp) = true).
      { assert (Hin : In (pp_row pp) (map pp_row kept)) by (apply in_map; exact Hpp).
        rewrite Hrows in Hin. apply filter_In in Hin. tauto. }
      rewrite (proj1 (List.Forall_forall _ _) Huser pp Hpp).
      unfold owner_live in Hlive.
      destruct (ubi !! p_user_id (pp_row pp)) as [u|] eqn:Eu; [|discriminate].
      exists u. destruct (Hfound _ _ Eu) as [Hin Hid].
      repeat split; auto. apply Z.eqb_eq. exact Hlive.
    + intros p Hp Hdead. unfold owner_live in Hdead.
      destruct (ubi !! p_user_id p) as [u|] eqn:Eu.
      * right. exists u. destruct (Hfound _ _ Eu) as [Hin Hid].
        repeat split; auto. apply Z.eqb_neq. exact Hdead.
      * left. apply Hmissing; auto.
Qed.

Lemma get_session_user_answers (w : world) :
  exists r w1, get_session_user w = (Value r, w1).
Proof.
  unfold get_session_user, select_user_by_id, execute, modify, gets, bind, ret.
  destruct (s_user (w_session w)); simpl; eauto.
Qed.

(** C7.  For every sequence of post rows and every value of all_comments,
    [make_posts] answers exactly the posts whose owner is in the fetched
    user map with del_flg 0, in the order of the input; each of them carries
    a stored user row with the owner's id and del_flg 0, and each post left
    out has no stored owner row or one with another del_flg.  GET /posts/<id>
    answers 404 or renders a stored post that carries such a live owner. *)
Theorem make_posts_drops_dead_owners
    (int_eq_str : Z -> string -> bool)
    (results : list post) (all_comments : bool) (id : string) (w : world) :
  (exists posts w',
     make_posts results all_comments w = (Value posts, w')
     /\ map ap_row posts
        = List.filter (owner_live (batch_users results all_comments w)) results
     /\ Forall (fun ap => exists u,
                  ap_user ap = Some u /\ has_live_owner (w_db w) (ap_row ap) u) posts
     /\ (forall p, In p results -> ~ In p (map ap_row posts) ->
           has_dead_owner (w_db w) p))
  /\ (fst (run_view (get_posts_id int_eq_str id) w) = Abort 404
      \/ exists ap me u,
           fst (run_view (get_posts_id int_eq_str id) w) = Render_post ap me
           /\ In (ap_row ap) (posts (w_db w))
           /\ ap_user ap = Some u
           /\ has_live_owner (w_db w) (ap_row ap) u).
Proof.
  split.
  - destruct (make_posts_spec results all_comments w)
      as (posts & qs & -> & Hrows & Hlive & Hdead).
    eexists _, _. split; [reflexivity|]. split; [exact Hrows|]. split.
    + eapply Forall_impl; [exact Hlive|]. intros ap (u & Hu & _ & Hl). eauto.
    + intros p Hp Hout. apply Hdead; [exact Hp|].
      destruct (owner_live _ p) eqn:E; [|reflexivity].
      exfalso. apply Hout. rewrite Hrows. apply filter_In. auto.
  - unfold run_view, get_posts_id, bind.
    unfold select_post_live_owner at 1. unfold execute, modify, gets, bind, ret. simpl.
    set (rows := flat_map _ _).
    set (w0 := with_log _ w).
    destruct (make_posts_spec rows true w0)
      as (posts & qs & -> & Hrows & Hlive & _).
    destruct posts as [|ap posts]; [left; reflexivity|right].
    destruct (get_session_user_answers (World (w_db w0) (w_session w0) (w_log w0 ++ qs)))
      as (me & w1 & ->).
    inversion Hlive as [|? ? (u & Hu & _ & Hl) _]; subst.
    exists ap, me, u. split; [reflexivity|]. split; [|auto].
    assert (Hin : In (ap_row ap) (map ap_row (ap :: posts))) by (left; reflexivity).
    rewrite Hrows in Hin. apply filter_In in Hin as [Hin _].
    subst rows. apply in_flat_map in Hin as (p & Hp & Hq).
    apply in_map_iff in Hq as (? & <- & _).
    apply filter_In in Hp. tauto.
Qed.

(** ** C8: registration, then login *)

Lemma filter_none {A} (f : A -> bool) (l : list A) :
  (forall x, In x l -> f x = false) -> List.filter f l = [].
Proof.
  induction l as [|y l IH]; simpl; intros H; [reflexivity|].
  rewrite (H y) by auto. apply IH. auto.
Qed.




(** ** The validation rules as the spec words them *)

Lemma prefix_len_all_in (cls : ascii -> bool) (s : string) :
  Py.all_in cls s = true -> Py.prefix_len cls s = String.length s.
Proof.
  induction s as [|c s IH]; simpl; [reflexivity|].
  destruct (cls c); simpl; [|discriminate]. intros H. f_equal. apply IH, H.
Qed.

(** A pair made of an alphanumeric account name of three characters or more
    and a password of six characters or more from [0-9a-zA-Z_] passes
    [validate_user]. *)
Lemma validate_user_accepts_clean_pairs (account_name password : string) :
  Py.all_in Py.is_alnum account_name = true ->
  (3 <= String.length account_name)%nat ->
  Py.all_in Py.is_word password = true ->
  (6 <= String.length password)%nat ->
  validate_user account_name password = true.
Proof.
  intros Ha Hla Hp Hlp. unfold validate_user, Py.re_match_repeat.
  rewrite (prefix_len_all_in _ _ Ha), (prefix_len_all_in _ _ Hp).
  destruct (Nat.leb_spec 3 (String.length account_name)); [|lia].
  destruct (Nat.leb_spec 6 (String.length password)); [|lia].
  reflexivity.
Qed.

(** [validate_user] looks at the first three and the first six characters
    only. *)
Lemma validate_user_reads_prefixes (account_name password rest rest' : string) :
  validate_user account_name password = true ->
  validate_user (account_name +:+ rest) (password +:+ rest') = true.
Proof.
  assert (Hmono : forall cls (s t : string),
            (Py.prefix_len cls s <= Py.prefix_len cls (s +:+ t))%nat).
  { intros cls s t. induction s as [|c s IH]; simpl; [lia|].
    destruct (cls c); lia. }
  unfold validate_user, Py.re_match_repeat.
  destruct (Nat.leb_spec 3 (Py.prefix_len Py.is_alnum account_name)); [|discriminate].
  destruct (Nat.leb_spec 6 (Py.prefix_len Py.is_word password)); [|discriminate].
  intros _.
  pose proof (Hmono Py.is_alnum account_name rest).
  pose proof (Hmono Py.is_word password rest').
  destruct (Nat.leb_spec 3 (Py.prefix_len Py.is_alnum (account_name +:+ rest))); [|lia].
  destruct (Nat.leb_spec 6 (Py.prefix_len Py.is_word (password +:+ rest'))); [|lia].
  reflexivity.
Qed.

(** ** Runs on the sample store *)

(** The comments of a post come out oldest first. *)
Example make_posts_chronological :
  fst (make_posts [Sample.alice_post] true Sample.anonymous)
  = Value [APost Sample.alice_post (Some Sample.alice)
             [AComment Sample.first_comment (Some Sample.bob);
              AComment Sample.second_comment (Some Sample.alice)] 2].
Proof. vm_compute. reflexivity. Qed.

(** Two rows with the same id share one list of comments, which the loop of
    step 4 reverses twice. *)
Example make_posts_shared_comment_list :
  fst (make_posts [Sample.alice_post; Sample.alice_post] true Sample.anonymous)
  = Value (let ap := APost Sample.alice_post (Some Sample.alice)
                       [AComment Sample.second_comment (Some Sample.alice);
                        AComment Sample.first_comment (Some Sample.bob)] 2 in
           [ap; ap]).
Proof. vm_compute. reflexivity. Qed.

(** Bob is banned: his post is dropped, Alice's stays. *)
Example make_posts_drops_bob :
  (fun o => match o with
            | Value l => map ap_row l
            | Exit _ => []
            end)
    (fst (make_posts [Sample.bob_post; Sample.alice_post] false Sample.anonymous))
  = [Sample.alice_post]
  /\ w_log (snd (make_posts [Sample.bob_post; Sample.alice_post] false Sample.anonymous))
     = [Select_comments_in [2; 1] 6; Select_users_in [3; 2]].
Proof. split; vm_compute; reflexivity. Qed.

(** The administrator's GET /admin/banned computes the page and returns
    nothing. *)
Example get_banned_returns_nothing :
  fst (run_view get_banned Sample.as_root) = View_returned_none.
Proof. reflexivity. Qed.

(** The administrator bans users 2 and 3; the value "x" does not convert and
    is skipped. *)
Example post_banned_bans :
  let req := Request [("csrf_token", "r00t"); ("uid", "2"); ("uid", "x"); ("uid", " 3 ")] [] in
  let out := run_view (post_banned req) Sample.as_root in
  fst out = Redirect "/admin/banned"
  /\ map (fun u => (u_id u, u_del_flg u)) (users (w_db (snd out))) = [(1, 0); (2, 1); (3, 1)]
  /\ w_log (snd out) = [Select_user_by_id 1; Update_del_flg 1 2; Update_del_flg 1 3].
Proof. repeat split; reflexivity. Qed.

(** A banned account cannot log in. *)
Example post_login_refuses_banned :
  fst (run_view (post_login Sample.digest Sample.account_name_eq
                   (Request [("account_name", "bob123"); ("password", "hunter22")] []) "t0k3n")
                Sample.anonymous)
  = Redirect "/login".
Proof. reflexivity. Qed.

(** * Further properties *)

(** ** Integers written and read back *)

Lemma pretty_N_char_digit (d : N) :
  (d < 10)%N ->
  Py.is_digit (pretty_N_char d) = true
  /\ Py.digit_val (pretty_N_char d) = Z.of_N d.
Proof.
  intros H.
  assert (d = 0 \/ d = 1 \/ d = 2 \/ d = 3 \/ d = 4 \/ d = 5 \/ d = 6
          \/ d = 7 \/ d = 8 \/ d = 9)%N as Hd by lia.
  repeat (destruct Hd as [->|Hd]; [split; reflexivity|]). subst. split; reflexivity.
Qed.

(** Reading the digits that [pretty_N_go] writes in front of [s]. *)
Lemma digits_value_pretty_N_go (x : N) :
  (0 < x)%N ->
  forall (acc : Z) (b : bool) (s : string),
  exists k : Z,
    Py.digits_value acc b (pretty_N_go x s)
    = Py.digits_value (acc * 10 ^ k + Z.of_N x) true s /\ 0 <= k.
Proof.
  induction (N.lt_wf_0 x) as [x _ IH]. intros Hx acc b s.
  rewrite pretty_N_go_step by exact Hx.
  destruct (pretty_N_char_digit (x mod 10)%N) as [Hdig Hval]; [apply N.mod_lt; lia|].
  destruct (N.eq_dec (x / 10)%N 0%N) as [E|E].
  - rewrite E, pretty_N_go_0. simpl. rewrite Hdig, Hval.
    exists 1. split; [|lia]. f_equal.
    assert (x mod 10 = x)%N by (apply N.mod_small, N.div_small_iff; lia). lia.
  - destruct (IH (x / 10)%N) with (acc := acc) (b := b)
      (s := String (pretty_N_char (x mod 10)%N) s) as (k & Hk & Hk0).
    + apply N.div_lt; lia.
    + apply N.neq_0_lt_0. exact E.
    + rewrite Hk. simpl. rewrite Hdig, Hval. exists (k + 1). split; [|lia]. f_equal.
      rewrite Z.pow_add_r by lia.
      pose proof (N.div_mod x 10 ltac:(lia)) as Hdm.
      assert (Hx10 : Z.of_N x = 10 * Z.of_N (x / 10)%N + Z.of_N (x mod 10)%N) by lia.
      rewrite Hx10. change (10 ^ 1) with 10. ring.
Qed.

Lemma all_in_pretty_N_go (cls : ascii -> bool) (x : N) :
  (forall d, (d < 10)%N -> cls (pretty_N_char d) = true) ->
  forall s, Py.all_in cls s = true -> Py.all_in cls (pretty_N_go x s) = true.
Proof.
  intros Hcls. induction (N.lt_wf_0 x) as [x _ IH]. intros s Hs.
  destruct (N.eq_dec x 0%N) as [->|E]; [rewrite pretty_N_go_0; exact Hs|].
  rewrite pretty_N_go_step by lia. apply IH.
  - apply N.div_lt; lia.
  - simpl. rewrite Hcls by (apply N.mod_lt; lia). exact Hs.
Qed.

Lemma strip_no_space (s : string) :
  Py.all_in not_space s = true -> Py.strip s = s.
Proof.
  intros H. unfold Py.strip.
  assert (Hl : Py.lstrip s = s).
  { destruct s as [|c s]; [reflexivity|]. simpl in *. unfold not_space in H.
    destruct (Py.is_space c); [discriminate|reflexivity]. }
  rewrite Hl. clear Hl. induction s as [|c s IH]; [reflexivity|].
  simpl in *. unfold not_space in H at 1.
  destruct (Py.is_space c) eqn:E; [discriminate|]. simpl in H.
  rewrite (IH H). destruct s; reflexivity.
Qed.

Lemma digit_not_space (d : N) : (d < 10)%N -> not_space (pretty_N_char d) = true.
Proof.
  intros H.
  assert (d = 0 \/ d = 1 \/ d = 2 \/ d = 3 \/ d = 4 \/ d = 5 \/ d = 6
          \/ d = 7 \/ d = 8 \/ d = 9)%N as Hd by lia.
  repeat (destruct Hd as [->|Hd]; [reflexivity|]). subst. reflexivity.
Qed.

(** [int] reads back what ["%d"] (and [str]) writes. *)
Lemma int_fmt_d (n : Z) : Py.int (Py.fmt_d n) = Some n.
Proof.
  unfold Py.fmt_d, pretty, pretty_Z. destruct n as [|p|p]; [reflexivity| |].
  - unfold pretty, pretty_positive, pretty, pretty_N.
    destruct (decide (N.pos p = 0%N)) as [E|_]; [discriminate E|].
    destruct (digits_value_pretty_N_go (N.pos p) ltac:(lia) 0 false EmptyString)
      as (k & Hk & _).
    unfold Py.int. rewrite strip_no_space
      by (apply all_in_pretty_N_go; [exact digit_not_space|reflexivity]).
    pose proof (all_in_pretty_N_go Py.is_digit (N.pos p)
                  (fun d H => proj1 (pretty_N_char_digit d H)) EmptyString eq_refl) as Hd.
    destruct (pretty_N_go (N.pos p) EmptyString) as [|c s] eqn:Es.
    + simpl in Hk. discriminate Hk.
    + simpl in Hd. apply andb_true_iff in Hd as [Hc _].
      assert (Hgo : match String c s with
                    | String "-" r => Z.opp <$> Py.digits_value 0 false r
                    | String "+" r => Py.digits_value 0 false r
                    | t => Py.digits_value 0 false t
                    end = Py.digits_value 0 false (String c s)).
      { destruct c as [[] [] [] [] [] [] [] []]; try reflexivity; discriminate Hc. }
      rewrite Hgo, Hk. simpl. f_equal.
  - unfold pretty, pretty_positive, pretty, pretty_N.
    destruct (decide (N.pos p = 0%N)) as [E|_]; [discriminate E|].
    destruct (digits_value_pretty_N_go (N.pos p) ltac:(lia) 0 false EmptyString)
      as (k & Hk & _).
    unfold Py.int. rewrite strip_no_space.
    + change (Z.opp <$> Py.digits_value 0 false (pretty_N_go (N.pos p) EmptyString)
              = Some (Z.neg p)).
      rewrite Hk. reflexivity.
    + simpl. apply all_in_pretty_N_go; [exact digit_not_space|reflexivity].
Qed.

(** ** The image URL of a stored post *)

(** X1.  The URL that [image_url] builds for a stored post of a supported
    type whose id is not 0 is /image/<id>.<ext> for an extension with which
    [get_image] answers the stored bytes under the stored MIME type. *)
Theorem image_url_is_served (w : world) (p : post) :
  unique_post_ids (w_db w) ->
  In p (posts (w_db w)) ->
  p_id p <> 0 ->
  supported_mime (p_mime p) = true ->
  exists ext,
    image_url p = "/image/" +:+ Py.fmt_d (p_id p) +:+ "." +:+ ext
    /\ run_view (get_image (Py.fmt_d (p_id p)) ext) w
       = (Image (p_imgdata p) (p_mime p),
          with_log (fun l => l ++ [Select_post_by_id (p_id p)]) w).
Proof.
  intros Huniq Hin Hid Hmime.
  assert (Hserve : forall ext, ext_matches ext (p_mime p) = true ->
            run_view (get_image (Py.fmt_d (p_id p)) ext) w
            = (Image (p_imgdata p) (p_mime p),
               with_log (fun l => l ++ [Select_post_by_id (p_id p)]) w)).
  { intros ext Hext. unfold get_image.
    rewrite (int_nonempty _ _ (int_fmt_d (p_id p))), int_fmt_d.
    destruct (Z.eqb_spec (p_id p) 0) as [|_]; [contradiction|].
    unfold run_view, select_post_by_id, execute, modify, gets, bind, ret. simpl.
    rewrite (fetchone_filter_unique p_id (posts (w_db w)) p Huniq Hin), Hext.
    reflexivity. }
  unfold supported_mime in Hmime. unfold image_url.
  destruct (String.eqb_spec (p_mime p) "image/jpeg") as [E1|_].
  { exists "jpg". split; [reflexivity|]. apply Hserve. rewrite E1. reflexivity. }
  destruct (String.eqb_spec (p_mime p) "image/png") as [E2|_].
  { exists "png". split; [reflexivity|]. apply Hserve. rewrite E2. reflexivity. }
  destruct (String.eqb_spec (p_mime p) "image/gif") as [E3|_]; [|discriminate Hmime].
  exists "gif". split; [reflexivity|]. apply Hserve. rewrite E3. reflexivity.
Qed.

Lemma image_url_is_served_witness :
  image_url Sample.alice_post = "/image/1.png"
  /\ exists ext,
       image_url Sample.alice_post = "/image/" +:+ Py.fmt_d 1 +:+ "." +:+ ext
       /\ run_view (get_image (Py.fmt_d 1) ext) Sample.anonymous
          = (Image Sample.png_bytes "image/png",
             with_log (fun l => l ++ [Select_post_by_id 1]) Sample.anonymous).
Proof.
  split; [reflexivity|].
  apply (image_url_is_served Sample.anonymous Sample.alice_post).
  - exact sample_unique_post_ids.
  - simpl. auto.
  - simpl. lia.
  - reflexivity.
Defined.

(** ** The fixture reset *)

Lemma filter_map_commute {A} (f : A -> bool) (h : A -> A) (l : list A) :
  (forall x, f (h x) = f x) ->
  List.filter f (map h l) = map h (List.filter f l).
Proof.
  intros H. induction l as [|x l IH]; simpl; [reflexivity|].
  rewrite H. destruct (f x); simpl; congruence.
Qed.

Lemma filter_idempotent {A} (f : A -> bool) (l : list A) :
  List.filter f (List.filter f l) = List.filter f l.
Proof.
  induction l as [|x l IH]; simpl; [reflexivity|].
  destruct (f x) eqn:E; simpl; rewrite ?E, IH; reflexivity.
Qed.

(** The store that [db_initialize] leaves. *)
Lemma db_initialize_result (w : world) :
  db_initialize w
  = (Value tt,
     World (Database
              (map (fun u => set_del_flg (if Z.rem (u_id u) 50 =? 0 then 1 else 0) u)
                   (List.filter (fun u => negb (u_id u >? 1000)) (users (w_db w))))
              (List.filter (fun p => negb (p_id p >? 10000)) (posts (w_db w)))
              (List.filter (fun c => negb (c_id c >? 100000)) (comments (w_db w)))
              (next_user_id (w_db w)) (next_post_id (w_db w))
              (next_comment_id (w_db w)) (now (w_db w)))
           (w_session w) (w_log w)).
Proof.
  unfold db_initialize, update, modify, bind, with_db, set_users, set_posts, set_comments.
  simpl. rewrite !map_map. do 3 f_equal. apply map_ext. intros u. simpl.
  destruct (Z.rem (u_id u) 50 =? 0); reflexivity.
Qed.

(** X2.  After GET /initialize every user has an id of at most 1000 and is
    banned (del_flg 1) exactly when the id is a multiple of 50, active
    (del_flg 0) otherwise; the users, posts and comments kept are those of
    ids at most 1000, 10000 and 100000, in their order; the session is
    untouched. *)
Theorem initialize_resets (w : world) :
  let out := run_view get_initialize w in
  let db' := w_db (snd out) in
  fst out = Text EmptyString
  /\ (forall u, In u (users db') ->
        u_id u <= 1000
        /\ ((u_del_flg u = 1 /\ (50 | u_id u)) \/ (u_del_flg u = 0 /\ ~ (50 | u_id u))))
  /\ map u_id (users db') = List.filter (fun i => i <=? 1000) (map u_id (users (w_db w)))
  /\ map u_account_name (users db')
     = map u_account_name (List.filter (fun u => u_id u <=? 1000) (users (w_db w)))
  /\ posts db' = List.filter (fun p => p_id p <=? 10000) (posts (w_db w))
  /\ comments db' = List.filter (fun c => c_id c <=? 100000) (comments (w_db w))
  /\ w_session (snd out) = w_session w.
Proof.
  unfold run_view, get_initialize, bind, ret. rewrite db_initialize_result. simpl.
  assert (Hle : forall x b, negb (x >? b) = (x <=? b)).
  { intros x b. destruct (Z.gtb_spec x b), (Z.leb_spec x b); simpl; auto; lia. }
  split; [reflexivity|]. split; [|split; [|split; [|split; [|split]]]].
  - intros u Hu. apply in_map_iff in Hu as (u0 & <- & Hu0).
    apply filter_In in Hu0 as [_ Hid]. rewrite Hle in Hid. simpl.
    split; [lia|].
    destruct (Z.eqb_spec (Z.rem (u_id u0) 50) 0) as [E|E]; [left|right]; split; auto.
    + apply Z.rem_divide; [lia|exact E].
    + intros Hd. apply E. apply Z.rem_divide; [lia|exact Hd].
  - rewrite map_map. simpl.
    induction (users (w_db w)) as [|u us IH]; simpl; [reflexivity|].
    rewrite Hle. destruct (u_id u <=? 1000); simpl; congruence.
  - rewrite map_map. simpl. f_equal. apply filter_ext. intros u. apply Hle.
  - apply filter_ext. intros p. apply Hle.
  - apply filter_ext. intros c. apply Hle.
  - reflexivity.
Qed.

(** X3.  Resetting twice leaves the store that resetting once leaves. *)
Theorem initialize_idempotent (w : world) :
  w_db (snd (run_view get_initialize (snd (run_view get_initialize w))))
  = w_db (snd (run_view get_initialize w)).
Proof.
  unfold run_view, get_initialize, bind, ret. rewrite !db_initialize_result. simpl.
  rewrite !filter_idempotent. f_equal.
  rewrite filter_map_commute by reflexivity.
  rewrite filter_idempotent, map_map. apply map_ext. intros u. reflexivity.
Qed.

(** ** Logging in and out *)

(** X4.  [try_login] only ever answers a stored user that is not banned,
    whose account name the store matches with the one given and whose stored
    passhash is the one computed from the password; it leaves the store and
    the session as they were. *)
Theorem try_login_sound
    (digest : string -> string) (account_name_eq : string -> string -> bool)
    (account_name password : string) (w w' : world) (u : user) :
  try_login digest account_name_eq account_name password w = (Value (Some u), w') ->
  In u (users (w_db w))
  /\ u_del_flg u = 0
  /\ account_name_eq (u_account_name u) account_name = true
  /\ u_passhash u = calculate_passhash digest (u_account_name u) password
  /\ w_db w' = w_db w /\ w_session w' = w_session w.
Proof.
  unfold try_login, select_user_by_account_live, execute, modify, gets, bind, ret. simpl.
  destruct (fetchone _) as [v|] eqn:E; [|discriminate].
  destruct (String.eqb_spec (calculate_passhash digest (u_account_name v) password)
                            (u_passhash v)) as [Hp|_]; [|discriminate].
  intros [= -> <-]. apply fetchone_filter_some in E as [Hin Hf].
  apply andb_true_iff in Hf as [Hname Hdel]. apply Z.eqb_eq in Hdel.
  repeat split; auto.
Qed.

Lemma try_login_sound_witness :
  In Sample.alice (users Sample.db) /\ u_del_flg Sample.alice = 0.
Proof.
  refine ((fun H => conj (proj1 H) (proj1 (proj2 H)))
            (try_login_sound Sample.digest Sample.account_name_eq "alice01" "secret123"
               Sample.anonymous _ Sample.alice _)).
  reflexivity.
Defined.



(** X6.  POST /register with a valid pair whose account name the store
    already has: the answer is the redirect to /register with a flashed
    message; no row is inserted and no session user is set. *)
Theorem post_register_rejects_taken_name
    (digest : string -> string) (account_name_eq : string -> string -> bool)
    (req : request) (token : string) (w : world) (account_name password : string)
    (u : user) :
  s_user (w_session w) = None ->
  form_get req "account_name" = Some account_name ->
  form_get req "password" = Some password ->
  validate_user account_name password = true ->
  In u (users (w_db w)) ->
  account_name_eq (u_account_name u) account_name = true ->
  exists w',
    run_view (post_register digest account_name_eq req token) w = (Redirect "/register", w')
    /\ w_db w' = w_db w
    /\ s_user (w_session w') = None
    /\ s_flashes (w_session w')
       = s_flashes (w_session w) ++ ["アカウント名がすでに使われています"].
Proof.
  intros Hanon Ha Hp Hvalid Hin Hname.
  unfold run_view, post_register, get_session_user, gets, bind, form_item.
  rewrite Hanon. unfold ret at 1. rewrite Ha. unfold ret at 1. rewrite Hp. unfold ret at 1.
  rewrite Hvalid. simpl negb. cbv iota.
  unfold select_account_exists, execute, modify, gets, bind, ret. simpl.
  assert (Hex : existsb (fun v => account_name_eq (u_account_name v) account_name)
                        (users (w_db w)) = true).
  { apply existsb_exists. exists u. auto. }
  rewrite Hex. unfold flash, modify. simpl. eexists. split; [reflexivity|]. simpl.
  rewrite Hanon. auto.
Qed.

Lemma post_register_rejects_taken_name_witness :
  exists w',
    run_view (post_register Sample.digest Sample.account_name_eq
                (Request [("account_name", "alice01"); ("password", "another1")] []) "t0k3n")
             Sample.anonymous = (Redirect "/register", w')
    /\ w_db w' = Sample.db.
Proof.
  destruct (post_register_rejects_taken_name Sample.digest Sample.account_name_eq
              (Request [("account_name", "alice01"); ("password", "another1")] []) "t0k3n"
              Sample.anonymous "alice01" "another1" Sample.alice) as (w' & H1 & H2 & _).
  - reflexivity.
  - reflexivity.
  - reflexivity.
  - reflexivity.
  - simpl. auto.
  - reflexivity.
  - exists w'. auto.
Defined.

(** X7.  After GET /logout the session is empty, whatever it held: POST /
    and POST /comment then answer the redirect to /login and change nothing,
    and the session accessor answers none without asking the store. *)
Theorem logout_ends_the_session (req : request) (w : world) :
  let w1 := snd (run_view get_logout w) in
  fst (run_view get_logout w) = Redirect "/"
  /\ w_session w1 = empty_session
  /\ w_db w1 = w_db w
  /\ get_session_user w1 = (Value None, w1)
  /\ run_view (post_index req) w1 = (Redirect "/login", w1)
  /\ run_view (post_comment req) w1 = (Redirect "/login", w1).
Proof. repeat split. Qed.

(** X8.  A session that resolves to a user is sent back to / by the four
    handlers of /login and /register: nothing is read from the form, no row
    is inserted and the session is left as it was. *)
Theorem logged_in_users_are_sent_home
    (digest : string -> string) (account_name_eq : string -> string -> bool)
    (req : request) (token : string) (w w1 : world) (me : user) :
  get_session_user w = (Value (Some me), w1) ->
  run_view (post_login digest account_name_eq req token) w = (Redirect "/", w1)
  /\ run_view (post_register digest account_name_eq req token) w = (Redirect "/", w1)
  /\ run_page get_login w = (Plain (Redirect "/"), w1)
  /\ run_page get_register w = (Plain (Redirect "/"), w1)
  /\ w_db w1 = w_db w /\ w_session w1 = w_session w.
Proof.
  intros H. destruct (get_session_user_frame _ _ _ H) as [Hdb Hs].
  unfold run_view, run_page, post_login, post_register, get_login, get_register, bind.
  rewrite H. repeat split; auto.
Qed.

Lemma logged_in_users_are_sent_home_witness :
  run_view (post_register Sample.digest Sample.account_name_eq
              (Request [("account_name", "carol1"); ("password", "passw0rd")] []) "t0k3n")
           Sample.as_alice
  = (Redirect "/", with_log (fun l => l ++ [Select_user_by_id 2]) Sample.as_alice).
Proof.
  refine (proj1 (proj2 (logged_in_users_are_sent_home Sample.digest Sample.account_name_eq
            (Request [("account_name", "carol1"); ("password", "passw0rd")] []) "t0k3n"
            Sample.as_alice _ Sample.alice _))).
  reflexivity.
Defined.

(** ** What the handlers leave alone *)

Lemma read_only_ret {A} (a : A) : read_only (ret a).
Proof. intros w. auto. Qed.

Lemma read_only_bind {A B} (m : flask A) (k : A -> flask B) :
  read_only m -> (forall a, read_only (k a)) -> read_only (bind m k).
Proof.
  intros Hm Hk w. unfold bind. specialize (Hm w).
  destruct (m w) as [[a|r] w1]; simpl in *; [|exact Hm].
  destruct (Hk a w1) as (H1 & H2 & H3). destruct Hm as (H4 & H5 & H6).
  repeat split; congruence.
Qed.

Lemma read_only_gets {A} (f : world -> A) : read_only (gets f).
Proof. intros w. auto. Qed.

Lemma read_only_query {A} (f : database -> A) : read_only (query f).
Proof. intros w. auto. Qed.

Lemma read_only_execute (q : statement) : read_only (execute q).
Proof. intros w. auto. Qed.

Lemma read_only_abort {A} (code : Z) : read_only (@abort A code).
Proof. intros w. auto. Qed.

Lemma read_only_raise {A} (e : exn) : read_only (@raise A e).
Proof. intros w. auto. Qed.

Lemma read_only_discard {A} (a : A) : read_only (discard a).
Proof. intros w. auto. Qed.

Lemma read_only_make_posts (results : list post) (all_comments : bool) :
  read_only (make_posts results all_comments).
Proof.
  intros w. destruct (make_posts_runs results all_comments w) as (ps & qs & -> & _).
  auto.
Qed.

Create HintDb read_only.
#[local] Hint Resolve read_only_ret read_only_gets read_only_query read_only_execute
  read_only_abort read_only_raise read_only_discard read_only_make_posts : read_only.

Ltac read_only_step :=
  match goal with
  | |- read_only (bind _ _) => apply read_only_bind; [|intros ?]
  | |- read_only (match ?x with _ => _ end) => destruct x
  | |- read_only _ => solve [auto with read_only]
  end.

Lemma read_only_get_session_user : read_only get_session_user.
Proof. unfold get_session_user, select_user_by_id. repeat read_only_step. Qed.

#[local] Hint Resolve read_only_get_session_user : read_only.

(** X9.  The handlers of the pages, of the images and of the admin listing
    change neither the store nor the user and the CSRF token that the
    session holds, whatever they are asked and however they end.  (What
    rendering a page does to the flashed messages is not stated.) *)
Theorem views_are_read_only
    (account_name_eq : string -> string -> bool) (timestamp : datetime -> Z)
    (int_eq_str : Z -> string -> bool)
    (account_name id ext : string) (max_created_at : option string) :
  read_only get_index
  /\ read_only (get_posts timestamp max_created_at)
  /\ read_only (get_user_list account_name_eq account_name)
  /\ read_only (get_posts_id int_eq_str id)
  /\ read_only (get_image id ext)
  /\ read_only get_login
  /\ read_only get_register
  /\ read_only get_banned.
Proof.
  repeat apply conj.
  - unfold get_index, select_index_posts. repeat read_only_step.
  - unfold get_posts, select_posts_page. repeat read_only_step.
  - unfold get_user_list, select_user_by_account_live, select_user_posts.
    repeat read_only_step.
  - unfold get_posts_id, select_post_live_owner. repeat read_only_step.
  - unfold get_image, select_post_by_id. repeat read_only_step.
  - unfold get_login. repeat read_only_step.
  - unfold get_register. repeat read_only_step.
  - unfold get_banned, select_ban_candidates. repeat read_only_step.
Qed.

(** X10.  For a request whose post_id, if it has one, is in plain text,
    POST /comment leaves the users, the posts and the session as they were,
    and either leaves the comments as they were or appends exactly one comment, written by the session user on the
    post id read from the form, and answers the redirect to that post. *)
Theorem post_comment_appends_at_most_one (req : request) (w : world) :
  (forall raw, form_get req "post_id" = Some raw -> plain raw = true) ->
  let out := run_view (post_comment req) w in
  let db := w_db w in
  let db' := w_db (snd out) in
  users db' = users db
  /\ posts db' = posts db
  /\ w_session (snd out) = w_session w
  /\ (comments db' = comments db
      \/ exists me raw post_id text,
           fst (get_session_user w) = Value (Some me)
           /\ form_get req "post_id" = Some raw
           /\ Py.int raw = Some post_id
           /\ form_get req "comment" = Some text
           /\ comments db'
              = comments db ++ [Comment (next_comment_id db) post_id (u_id me) text (now db)]
           /\ fst out = Redirect ("/posts/" +:+ Py.fmt_d post_id)).
Proof.
  intros _.
  destruct (get_session_user_answers w) as (r & w1 & Hme).
  destruct (get_session_user_frame _ _ _ Hme) as [Hdb Hs].
  unfold run_view, post_comment, bind. rewrite Hme.
  destruct r as [me|]; [|simpl; rewrite Hdb, Hs; auto].
  unfold csrf_mismatch, form_item, session_csrf_token, gets, bind, ret, abort, raise.
  destruct (form_get req "csrf_token") as [tok|]; [|simpl; rewrite Hdb, Hs; auto].
  destruct (s_csrf_token (w_session w1)) as [stored|]; [|simpl; rewrite Hdb, Hs; auto].
  destruct (negb (String.eqb tok stored)); [simpl; rewrite Hdb, Hs; auto|].
  destruct (form_get req "post_id") as [raw|]; [|simpl; rewrite Hdb, Hs; auto].
  destruct (negb (Py.re_match_repeat Py.is_digit 1 raw)); [simpl; rewrite Hdb, Hs; auto|].
  destruct (Py.int raw) as [post_id|] eqn:Hint; [|simpl; rewrite Hdb, Hs; auto].
  destruct (form_get req "comment") as [text|] eqn:Htext; [|simpl; rewrite Hdb, Hs; auto].
  unfold insert_comment, execute, modify, gets, bind, ret. simpl.
  rewrite Hdb, Hs. repeat split; auto.
  right. exists me, raw, post_id, text. repeat split; auto.
Qed.

(** Alice comments on post 1. *)
Lemma post_comment_appends_at_most_one_witness :
  let req := Request [("csrf_token", "a11ce"); ("post_id", "1"); ("comment", "hi")] [] in
  let db' := w_db (snd (run_view (post_comment req) Sample.as_alice)) in
  users db' = users Sample.db
  /\ posts db' = posts Sample.db
  /\ comments db' = comments Sample.db ++ [Comment 3 1 2 "hi" 1000].
Proof.
  intros req db'.
  destruct (post_comment_appends_at_most_one req Sample.as_alice)
    as (H1 & H2 & _ & _).
  - intros raw [= <-]. reflexivity.
  - split; [exact H1|]. split; [exact H2|]. reflexivity.
Defined.

(** X11.  Whatever the request, POST / leaves the users and the comments as
    they were, and either leaves the posts as they were or appends exactly
    one post, owned by the session user, of one of the three image types and
    of at most 10 MiB. *)
Theorem post_index_appends_at_most_one (req : request) (w : world) :
  let out := run_view (post_index req) w in
  let db := w_db w in
  let db' := w_db (snd out) in
  users db' = users db
  /\ comments db' = comments db
  /\ (posts db' = posts db
      \/ exists me file,
           fst (get_session_user w) = Value (Some me)
           /\ files_get req "file" = Some file
           /\ supported_mime (mimetype file) = true
           /\ Z.of_nat (length (stream file)) <= UPLOAD_LIMIT
           /\ posts db'
              = posts db ++ [Post (next_post_id db) (u_id me) (mimetype file) (stream file)
                                  (form_get req "body") (now db)]
           /\ fst out = Redirect ("/posts/" +:+ Py.fmt_d (next_post_id db))).
Proof.
  destruct (get_session_user_answers w) as (r & w1 & Hme).
  destruct (get_session_user_frame _ _ _ Hme) as [Hdb Hs].
  unfold run_view, post_index, bind. rewrite Hme.
  destruct r as [me|]; [|simpl; rewrite Hdb; auto].
  unfold csrf_mismatch, form_item, session_csrf_token, gets, bind, ret, abort, raise.
  destruct (form_get req "csrf_token") as [tok|]; [|simpl; rewrite Hdb; auto].
  destruct (s_csrf_token (w_session w1)) as [stored|]; [|simpl; rewrite Hdb; auto].
  destruct (negb (String.eqb tok stored)); [simpl; rewrite Hdb; auto|].
  destruct (files_get req "file") as [file|] eqn:Hfile; [|simpl; rewrite Hdb; auto].
  destruct (negb (file_truthy (Some file))); [simpl; rewrite Hdb; auto|].
  destruct (supported_mime (mimetype file)) eqn:Hmime; [|simpl; rewrite Hdb; auto].
  simpl negb. cbv iota.
  destruct (Z.gtb_spec (Z.of_nat (length (stream file))) UPLOAD_LIMIT) as [|Hsize];
    [simpl; rewrite Hdb; auto|].
  unfold insert_post, execute, modify, gets, bind, ret. simpl.
  rewrite Hdb. repeat split; auto.
  right. exists me, file. repeat split; auto.
Qed.

(** ** Banning *)

Lemma for_each_update_del_flg (ids : list Z) (w : world) :
  for_each ids (fun id => update_del_flg 1 id) w
  = (Value tt,
     World (set_users
              (map (fun u => if mem (u_id u) ids then set_del_flg 1 u else u)
                   (users (w_db w)))
              (next_user_id (w_db w)) (w_db w))
           (w_session w)
           (w_log w ++ map (Update_del_flg 1) ids)).
Proof.
  revert w. induction ids as [|i ids IH]; intros w.
  - simpl. unfold ret. rewrite app_nil_r, map_id. destruct w as [[] ? ?]. reflexivity.
  - simpl. unfold bind at 1. unfold update_del_flg, execute, modify, bind, ret.
    simpl. rewrite IH. simpl. f_equal. f_equal; [|rewrite <- app_assoc; reflexivity].
    unfold set_users. simpl. f_equal. rewrite map_map. apply map_ext. intros u.
    unfold mem. simpl.
    destruct (u_id u =? i) eqn:E; simpl.
    + destruct (existsb _ ids); reflexivity.
    + rewrite ?E. reflexivity.
Qed.

(** X12.  POST /admin/banned by a user with authority and the session's
    token, with uid values in plain text, sets del_flg to 1 on exactly the
    users whose id is among the uid values that convert to an integer;
    every other column and row, the posts and the comments stay as they
    were, and the answer is the redirect to /admin/banned. *)
Theorem post_banned_bans_the_listed
    (req : request) (w w1 : world) (me : user) (tok : string) :
  get_session_user w = (Value (Some me), w1) ->
  u_authority me <> 0 ->
  form_get req "csrf_token" = Some tok ->
  s_csrf_token (w_session w) = Some tok ->
  plain_field req "uid" ->
  let out := run_view (post_banned req) w in
  let ids := form_getlist_int req "uid" in
  fst out = Redirect "/admin/banned"
  /\ users (w_db (snd out))
     = map (fun u => if mem (u_id u) ids then set_del_flg 1 u else u) (users (w_db w))
  /\ posts (w_db (snd out)) = posts (w_db w)
  /\ comments (w_db (snd out)) = comments (w_db w)
  /\ w_session (snd out) = w_session w.
Proof.
  intros Hme Hauth Hf Hs _.
  destruct (get_session_user_frame _ _ _ Hme) as [Hdb Hsess].
  unfold run_view, post_banned, bind, ret. rewrite Hme. simpl.
  destruct (Z.eqb_spec (u_authority me) 0) as [|_]; [contradiction|].
  rewrite (csrf_mismatch_detects req w1 tok tok Hf) by congruence.
  rewrite String.eqb_refl. simpl.
  rewrite for_each_update_del_flg. simpl. rewrite Hdb, Hsess. auto.
Qed.

Lemma post_banned_bans_the_listed_witness :
  let req := Request [("csrf_token", "r00t"); ("uid", "2"); ("uid", "x")] [] in
  map (fun u => (u_id u, u_del_flg u))
      (users (w_db (snd (run_view (post_banned req) Sample.as_root))))
  = [(1, 0); (2, 1); (3, 1)].
Proof.
  intros req.
  assert (Hplain : plain_field req "uid").
  { intros v [H|[H|[H|[]]]]; injection H as <-; first [discriminate | reflexivity]. }
  rewrite (proj1 (proj2 (post_banned_bans_the_listed req Sample.as_root _ Sample.root "r00t"
             eq_refl ltac:(discriminate) eq_refl eq_refl Hplain))).
  reflexivity.
Defined.

Lemma no_live_account (account_name_eq : string -> string -> bool)
    (account_name : string) (us : list user) :
  (forall u, In u us -> account_name_eq (u_account_name u) account_name = true ->
     u_del_flg u <> 0) ->
  List.filter (fun u => account_name_eq (u_account_name u) account_name && (u_del_flg u =? 0))
              us = [].
Proof.
  intros H. apply filter_none. intros u Hu.
  destruct (account_name_eq (u_account_name u) account_name) eqn:E; [|reflexivity].
  simpl. apply Z.eqb_neq. auto.
Qed.

(** X13.  Once an administrator has banned, through a POST /admin/banned
    with uid values in plain text, every user the store matches with an
    account name, that account is locked out: POST /login with the name is refused from any anonymous session,
    whatever the password, and GET /@<name> answers 404. *)
Theorem banned_account_is_locked_out
    (digest : string -> string) (account_name_eq : string -> string -> bool)
    (req : request) (w w1 : world) (me : user) (tok account_name : string) :
  get_session_user w = (Value (Some me), w1) ->
  u_authority me <> 0 ->
  form_get req "csrf_token" = Some tok ->
  s_csrf_token (w_session w) = Some tok ->
  plain_field req "uid" ->
  (forall u, In u (users (w_db w)) ->
     account_name_eq (u_account_name u) account_name = true ->
     mem (u_id u) (form_getlist_int req "uid") = true) ->
  let w2 := snd (run_view (post_banned req) w) in
  fst (run_page (get_user_list account_name_eq account_name) w2) = Plain (Abort 404)
  /\ forall (login : request) (token password : string) (sess : session),
       s_user sess = None ->
       form_get login "account_name" = Some account_name ->
       form_get login "password" = Some password ->
       fst (run_view (post_login digest account_name_eq login token)
                     (with_session (fun _ => sess) w2))
       = Redirect "/login".
Proof.
  intros Hme Hauth Hf Hs _ Hall w2.
  assert (Husers : users (w_db w2)
                   = map (fun u => if mem (u_id u) (form_getlist_int req "uid")
                                   then set_del_flg 1 u else u) (users (w_db w))).
  { subst w2. destruct (get_session_user_frame _ _ _ Hme) as [Hdb Hsess].
    unfold run_view, post_banned, bind, ret. rewrite Hme. simpl.
    destruct (Z.eqb_spec (u_authority me) 0) as [|_]; [contradiction|].
    rewrite (csrf_mismatch_detects req w1 tok tok Hf) by congruence.
    rewrite String.eqb_refl. simpl.
    rewrite for_each_update_del_flg. simpl. rewrite Hdb. reflexivity. }
  assert (Hnone : List.filter
                    (fun u => account_name_eq (u_account_name u) account_name
                              && (u_del_flg u =? 0)) (users (w_db w2)) = []).
  { apply no_live_account. rewrite Husers. intros u' Hu' Hname.
    apply in_map_iff in Hu' as (u & <- & Hu).
    destruct (mem (u_id u) (form_getlist_int req "uid")) eqn:E.
    - simpl. lia.
    - rewrite (Hall u Hu Hname) in E. discriminate E. }
  split.
  - unfold run_page, get_user_list, select_user_by_account_live, execute, modify,
      gets, bind, ret, abort. simpl. rewrite Hnone. reflexivity.
  - intros login token password sess Hanon Ha Hp.
    unfold run_view, post_login, get_session_user, gets, bind, form_item. simpl.
    rewrite Hanon. unfold ret at 1. rewrite Ha. unfold ret at 1. rewrite Hp. unfold ret at 1.
    unfold try_login, select_user_by_account_live, execute, modify, gets, bind, ret. simpl.
    rewrite Hnone. reflexivity.
Qed.

(** The administrator bans Alice; her page is gone and she cannot log in. *)
Lemma banned_account_is_locked_out_witness :
  let req := Request [("csrf_token", "r00t"); ("uid", "2")] [] in
  let w2 := snd (run_view (post_banned req) Sample.as_root) in
  fst (run_page (get_user_list Sample.account_name_eq "alice01") w2) = Plain (Abort 404)
  /\ fst (run_view (post_login Sample.digest Sample.account_name_eq
                      (Request [("account_name", "alice01"); ("password", "secret123")] [])
                      "t0k3n")
                   (with_session (fun _ => empty_session) w2))
     = Redirect "/login".
Proof.
  intros req w2.
  destruct (banned_account_is_locked_out Sample.digest Sample.account_name_eq req
              Sample.as_root _ Sample.root "r00t" "alice01" eq_refl) as [H1 H2].
  - discriminate.
  - reflexivity.
  - reflexivity.
  - intros v [H|[H|[]]]; injection H as <-; first [discriminate | reflexivity].
  - intros u [<-|[<-|[<-|[]]]]; simpl; intros Hn; first [discriminate Hn | reflexivity].
  - split; [exact H1|]. apply (H2 _ "t0k3n" "secret123" empty_session); reflexivity.
Defined.

(** ** ORDER BY and LIMIT *)

Lemma insert_by_perm {A} (le : A -> A -> bool) (x : A) (l : list A) :
  Permutation (insert_by le x l) (x :: l).
Proof.
  induction l as [|y l IH]; simpl; [reflexivity|].
  destruct (le x y); [reflexivity|].
  rewrite IH. apply perm_swap.
Qed.

Lemma order_by_perm {A} (le : A -> A -> bool) (l : list A) :
  Permutation (order_by le l) l.
Proof.
  induction l as [|x l IH]; simpl; [reflexivity|].
  rewrite insert_by_perm. constructor. exact IH.
Qed.

Lemma order_by_In {A} (le : A -> A -> bool) (l : list A) (x : A) :
  In x (order_by le l) <-> In x l.
Proof.
  split; apply Permutation_in; [|symmetry]; apply order_by_perm.
Qed.

Section Ordering.

Context {A : Type} (le : A -> A -> bool).
Hypothesis le_total : forall a b, le a b = true \/ le b a = true.
Hypothesis le_trans : forall a b c, le a b = true -> le b c = true -> le a c = true.

Let R (a b : A) : Prop := le a b = true.

Lemma insert_by_sorted (x : A) (l : list A) :
  StronglySorted R l -> StronglySorted R (insert_by le x l).
Proof.
  induction l as [|y l IH]; simpl; intros Hs.
  - constructor; constructor.
  - inversion Hs as [|? ? Hl Hy]; subst.
    destruct (le x y) eqn:E.
    + constructor; [exact Hs|]. constructor; [exact E|].
      eapply Forall_impl; [exact Hy|]. intros z Hz. exact (le_trans _ _ _ E Hz).
    + constructor; [apply IH; exact Hl|].
      apply List.Forall_forall. intros z Hz.
      apply (Permutation_in _ (insert_by_perm le x l)) in Hz as [<-|Hz].
      * destruct (le_total x y) as [H|H]; [congruence|exact H].
      * exact (proj1 (List.Forall_forall _ _) Hy z Hz).
Qed.

Lemma order_by_sorted (l : list A) : StronglySorted R (order_by le l).
Proof.
  induction l as [|x l IH]; simpl; [constructor|].
  apply insert_by_sorted. exact IH.
Qed.

End Ordering.

Lemma StronglySorted_take {A} (R : A -> A -> Prop) (n : nat) (l : list A) :
  StronglySorted R l -> StronglySorted R (take n l).
Proof.
  intros H. revert n. induction H as [|x l Hl IH Hx]; intros [|n]; simpl;
    try constructor; auto.
  apply List.Forall_forall. intros y Hy.
  apply list_elem_of_In, subseteq_take, list_elem_of_In in Hy.
  exact (proj1 (List.Forall_forall _ _) Hx y Hy).
Qed.

Lemma StronglySorted_filter {A} (R : A -> A -> Prop) (f : A -> bool) (l : list A) :
  StronglySorted R l -> StronglySorted R (List.filter f l).
Proof.
  induction 1 as [|x l Hl IH Hx]; simpl; [constructor|].
  destruct (f x); [|exact IH]. constructor; [exact IH|].
  apply List.Forall_forall. intros y Hy. apply filter_In in Hy as [Hy _].
  exact (proj1 (List.Forall_forall _ _) Hx y Hy).
Qed.

(** In a sorted list cut at [n], what is cut off comes after everything
    kept, and then [n] elements are kept. *)
Lemma take_sorted_top {A} (R : A -> A -> Prop) (n : nat) (l : list A) (x : A) :
  StronglySorted R l -> In x l ->
  In x (take n l)
  \/ (length (take n l) = n /\ Forall (fun y => R y x) (take n l)).
Proof.
  intros Hs Hx. rewrite <- (take_drop n l) in Hx, Hs.
  apply in_app_or in Hx as [Hx|Hx]; [left; exact Hx|right].
  split.
  - apply length_take_le. destruct (Nat.le_gt_cases n (length l)) as [H|H]; [exact H|].
    rewrite drop_ge in Hx by lia. destruct Hx.
  - apply List.Forall_forall. intros y Hy.
    clear -Hs Hx Hy. revert Hs Hy. generalize (take n l) as k.
    induction k as [|z k IH]; simpl; intros Hs Hy; [destruct Hy|].
    inversion Hs as [|? ? Hk Hz]; subst. destruct Hy as [<-|Hy].
    + apply (proj1 (List.Forall_forall _ _) Hz). apply in_or_app. auto.
    + auto.
Qed.

(** ** The comments that post assembly attaches *)

Lemma fetch_related_comments (results : list post) (all_comments : bool) (w w' : world)
    (cs : list comment) (users_by_id : gmap Z user) :
  fetch_related results all_comments w = (Value (cs, users_by_id), w') ->
  (forall c, In c cs -> In c (comments (w_db w))) /\ (length cs <= 20)%nat.
Proof.
  unfold fetch_related, select_comments_in, select_users_in, execute, modify,
    gets, bind, ret. simpl.
  set (limit := if all_comments then 20 else _).
  assert (Hlimit : (Z.to_nat limit <= 20)%nat).
  { subst limit. destruct all_comments; lia. }
  intros H.
  assert (Hcs : cs = take (Z.to_nat limit)
                  (order_by comment_order
                     (List.filter (fun c => mem (c_post_id c) (map p_id results))
                                  (comments (w_db w))))).
  { destruct (elements _); injection H as <- _ _; reflexivity. }
  subst cs. split.
  - intros c Hc. apply list_elem_of_In, subseteq_take, list_elem_of_In in Hc.
    apply order_by_In, filter_In in Hc. tauto.
  - pose proof (firstn_le_length (Z.to_nat limit)
                  (order_by comment_order
                     (List.filter (fun c => mem (c_post_id c) (map p_id results))
                                  (comments (w_db w))))). lia.
Qed.

Lemma init_comment_tables_ok (all_comments : bool) (pool : list comment) (ids : list Z) :
  tables_ok all_comments pool 0 (init_comment_tables ids).
Proof.
  unfold init_comment_tables.
  assert (H : forall (l : list Z) (t : comment_tables),
             tables_ok all_comments pool 0 t ->
             tables_ok all_comments pool 0
               (foldl (fun (t : comment_tables) post_id =>
                         (<[post_id := []]> (fst t), <[post_id := 0]> (snd t))) t l)).
  { induction l as [|i l IH]; simpl; intros t Ht; [exact Ht|].
    apply IH. destruct Ht as [H1 H2]. split; simpl.
    - intros k kept Hk. apply lookup_insert_Some in Hk as [[<- <-]|[Hne Hk]].
      + split; [constructor|]. split; [simpl; lia|].
        exists 0. rewrite lookup_insert_eq. split; [reflexivity|simpl; lia].
      + destruct (H1 k kept Hk) as (Ha & Hb & n & Hn & Hc).
        split; [exact Ha|]. split; [exact Hb|].
        exists n. rewrite lookup_insert_ne by exact Hne. auto.
    - intros k n Hk. apply lookup_insert_Some in Hk as [[_ <-]|[_ Hk]]; [lia|].
      exact (H2 k n Hk). }
  apply H. split; simpl; intros k ? Hk; rewrite lookup_empty in Hk; discriminate Hk.
Qed.

Lemma attach_comment_ok (all_comments : bool) (users_by_id : gmap Z user)
    (pool : list comment) (N : Z) (t t' : comment_tables) (c : comment) :
  tables_ok all_comments pool N t ->
  In c pool ->
  attach_comment all_comments users_by_id t c = Some t' ->
  tables_ok all_comments pool (N + 1) t'.
Proof.
  intros [H1 H2] Hc. unfold attach_comment.
  destruct (snd t !! c_post_id c) as [n|] eqn:En; [|discriminate].
  destruct (fst t !! c_post_id c) as [kept|] eqn:Ek; [|discriminate].
  destruct (H1 _ _ Ek) as (Ha & Hb & n' & Hn' & Hlen).
  assert (n' = n) by congruence. subst n'.
  pose proof (H2 _ _ En) as Hn.
  destruct (all_comments || (length kept <? 3)%nat) eqn:Econd; intros [= <-]; split; simpl.
  - intros k l Hk. apply lookup_insert_Some in Hk as [[<- <-]|[Hne Hk]].
    + split; [|split].
      * apply Forall_app. split; [exact Ha|]. constructor; [|constructor]. auto.
      * intros ->. simpl in Econd. apply Nat.ltb_lt in Econd.
        rewrite length_app. simpl. lia.
      * exists (n + 1). rewrite lookup_insert_eq. split; [reflexivity|].
        rewrite length_app. simpl. lia.
    + destruct (H1 k l Hk) as (Ha' & Hb' & m & Hm & Hc').
      split; [exact Ha'|]. split; [exact Hb'|].
      exists m. rewrite lookup_insert_ne by exact Hne. auto.
  - intros k m Hk. apply lookup_insert_Some in Hk as [[_ <-]|[_ Hk]]; [lia|].
    specialize (H2 k m Hk). lia.
  - intros k l Hk. destruct (H1 k l Hk) as (Ha' & Hb' & m & Hm & Hc').
    split; [exact Ha'|]. split; [exact Hb'|].
    destruct (decide (c_post_id c = k)) as [<-|Hne].
    + exists (n + 1). rewrite lookup_insert_eq. split; [reflexivity|].
      assert (m = n) by congruence. lia.
    + exists m. rewrite lookup_insert_ne by exact Hne. auto.
  - intros k m Hk. apply lookup_insert_Some in Hk as [[_ <-]|[_ Hk]]; [lia|].
    specialize (H2 k m Hk). lia.
Qed.

Lemma attach_comments_ok (all_comments : bool) (users_by_id : gmap Z user)
    (pool : list comment) (cs : list comment) :
  (forall c, In c cs -> In c pool) ->
  forall (N : Z) (t t' : comment_tables),
  tables_ok all_comments pool N t ->
  attach_comments all_comments users_by_id cs t = Some t' ->
  tables_ok all_comments pool (N + Z.of_nat (length cs)) t'.
Proof.
  induction cs as [|c cs IH]; simpl; intros Hpool N t t' Ht.
  - intros [= <-]. rewrite Z.add_0_r. exact Ht.
  - destruct (attach_comment all_comments users_by_id t c) as [t1|] eqn:E; [|discriminate].
    intros H. apply (attach_comment_ok _ _ pool N) in E; auto.
    apply (IH (fun x Hx => Hpool x (or_intror Hx)) (N + 1) t1 t' E) in H.
    replace (N + Z.of_nat (S (length cs)))
      with (N + 1 + Z.of_nat (length cs)) by lia.
    exact H.
Qed.

(** The lists read after the loop of step 4 are those of before, each as it
    was or reversed. *)
Lemma finish_posts_final (users_by_id : gmap Z user) (counts : gmap Z Z)
    (results : list post) (cbp : gmap Z (list assembled_comment)) :
  let out := finish_posts users_by_id counts results cbp in
  (forall k l', snd out !! k = Some l' ->
     exists l, cbp !! k = Some l /\ (l' = l \/ l' = rev l))
  /\ Forall (fun pp => pp_comment_count pp = default 0 (counts !! p_id (pp_row pp)))
            (fst out).
Proof.
  revert cbp. induction results as [|p results IH]; simpl; intros cbp.
  - split; [eauto|constructor].
  - specialize (IH (alter (@rev assembled_comment) (p_id p) cbp)).
    destruct (finish_posts users_by_id counts results _) as [kept final].
    simpl in *. destruct IH as [IH1 IH2]. split.
    + intros k l' Hk. destruct (IH1 k l' Hk) as (l & Hl & Hor).
      rewrite lookup_alter in Hl. destruct (decide (p_id p = k)) as [<-|Hne].
      * destruct (cbp !! p_id p) as [l0|]; [|discriminate]. simpl in Hl.
        injection Hl as Heq. subst l. exists l0. split; [reflexivity|].
        destruct Hor as [-> | ->]; [auto|]. rewrite rev_involutive. auto.
      * eauto.
    + destruct (owner_live users_by_id p); [constructor; [reflexivity|]|]; exact IH2.
Qed.

(** X14.  Every post that [make_posts] answers carries comments of that very
    post, all of them stored comments, three at most unless all_comments is
    set; its comment_count is at least the number of comments it carries and
    at most 20. *)
Theorem make_posts_comments_bounded (results : list post) (all_comments : bool) (w : world) :
  exists posts w',
    make_posts results all_comments w = (Value posts, w')
    /\ Forall (fun ap =>
         Forall (fun c => c_post_id (ac_row c) = p_id (ap_row ap)
                          /\ In (ac_row c) (comments (w_db w))) (ap_comments ap)
         /\ (all_comments = false -> (length (ap_comments ap) <= 3)%nat)
         /\ Z.of_nat (length (ap_comments ap)) <= ap_comment_count ap <= 20) posts.
Proof.
  destruct results as [|p0 results].
  - exists [], w. split; [reflexivity|constructor].
  - set (R := p0 :: results).
    assert (Hmk : make_posts R all_comments
                  = (fetched <- fetch_related R all_comments;;
                     let '(all_related_comments, users_by_id) := fetched in
                     match attach_comments all_comments users_by_id all_related_comments
                             (init_comment_tables (map p_id R)) with
                     | None => raise (KeyError "post_id")
                     | Some (comments_by_post_id, comment_counts) =>
                         let '(kept, final) :=
                           finish_posts users_by_id comment_counts R comments_by_post_id in
                         ret (map (resolve final) kept)
                     end)) by reflexivity.
    rewrite Hmk. clear Hmk. unfold bind.
    destruct (fetch_related_runs R all_comments w)
      as (cs & ubi & qs & Hf & _ & Hcs & _).
    rewrite Hf. destruct (fetch_related_comments _ _ _ _ _ _ Hf) as [Hpool Hlen].
    destruct (attach_comments_total all_comments ubi (map p_id R) cs
                (init_comment_tables (map p_id R))
                (init_comment_tables_covers _) Hcs) as [[cbp cnt] Hat].
    rewrite Hat.
    pose proof (attach_comments_ok all_comments ubi (comments (w_db w)) cs Hpool 0 _ _
                  (init_comment_tables_ok _ _ _) Hat) as [H1 H2]. simpl in H1, H2.
    pose proof (finish_posts_final ubi cnt R cbp) as Hfin.
    destruct (finish_posts ubi cnt R cbp) as [kept final]. cbv zeta in Hfin.
    cbn [fst snd] in Hfin. destruct Hfin as [Hfinal Hcount].
    eexists _, _. split; [reflexivity|].
    apply List.Forall_forall. intros ap Hap.
    apply in_map_iff in Hap as (pp & <- & Hpp). simpl.
    rewrite (proj1 (List.Forall_forall _ _) Hcount pp Hpp).
    assert (Hcnt : 0 <= default 0 (cnt !! p_id (pp_row pp)) <= 20).
    { destruct (cnt !! p_id (pp_row pp)) as [n|] eqn:En; simpl; [|lia].
      specialize (H2 _ _ En). lia. }
    destruct (final !! p_id (pp_row pp)) as [l'|] eqn:El; simpl.
    + destruct (Hfinal _ _ El) as (l & Hl & Hor).
      destruct (H1 _ _ Hl) as (Ha & Hb & n & Hn & Hln).
      rewrite Hn in *. simpl in *.
      destruct Hor as [-> | ->].
      * repeat split; auto; lia.
      * rewrite length_rev. repeat split; auto; try lia. apply Forall_rev. exact Ha.
    + repeat split; auto; simpl; lia.
Qed.

(** ** The listing pages *)

Lemma newest_first_sorted (l : list post) :
  StronglySorted newer_or_same (order_by newest_first l).
Proof.
  assert (H : StronglySorted (fun a b => newest_first a b = true)
                             (order_by newest_first l)).
  { apply order_by_sorted; unfold newest_first.
    - intros a b. destruct (Z.leb_spec (p_created_at b) (p_created_at a)); [auto|].
      right. apply Z.leb_le. lia.
    - intros a b c Hab Hbc. apply Z.leb_le in Hab, Hbc. apply Z.leb_le. lia. }
  induction H as [|x k Hk IH Hx]; constructor; [exact IH|].
  eapply Forall_impl; [exact Hx|]. intros y Hy. apply Z.leb_le in Hy. exact Hy.
Qed.

Lemma filter_all {A} (f : A -> bool) (l : list A) :
  (forall x, In x l -> f x = true) -> List.filter f l = l.
Proof.
  induction l as [|x l IH]; simpl; intros H; [reflexivity|].
  rewrite (H x) by auto. f_equal. apply IH. auto.
Qed.

(** With user ids that identify rows, [make_posts] keeps every post that has
    a live owner. *)
Lemma make_posts_keeps_all (results : list post) (all_comments : bool) (w : world) :
  unique_user_ids (w_db w) ->
  (forall p, In p results -> exists u, has_live_owner (w_db w) p u) ->
  exists listed qs,
    make_posts results all_comments w
      = (Value listed, World (w_db w) (w_session w) (w_log w ++ qs))
    /\ map ap_row listed = results
    /\ Forall (fun ap => exists u,
                 ap_user ap = Some u /\ has_live_owner (w_db w) (ap_row ap) u) listed.
Proof.
  intros Huniq Hlive.
  destruct (make_posts_spec results all_comments w)
    as (listed & qs & Hrun & Hrows & Hall & Hdead).
  exists listed, qs. split; [exact Hrun|]. split.
  - rewrite Hrows. apply filter_all. intros p Hp.
    destruct (owner_live _ p) eqn:E; [reflexivity|exfalso].
    destruct (Hlive p Hp) as (u & Hu & Hid & Hdel).
    destruct (Hdead p Hp E) as [Hnone|(v & Hv & Hvid & Hvdel)].
    + exact (Hnone u Hu Hid).
    + assert (v = u) by (apply Huniq; auto; congruence). subst v. contradiction.
  - eapply Forall_impl; [exact Hall|]. intros ap (u & Hu & _ & Hl). eauto.
Qed.

(** The rows of the join of GET /: the posts of live owners. *)
Lemma index_join_In (db : database) (q : post) :
  In q (flat_map
          (fun p => map (fun _ => without_imgdata p)
             (List.filter (fun u => (p_user_id p =? u_id u) && (u_del_flg u =? 0)) (users db)))
          (posts db))
  <-> exists p u, In p (posts db) /\ q = without_imgdata p /\ has_live_owner db p u.
Proof.
  rewrite in_flat_map. split.
  - intros (p & Hp & Hq). apply in_map_iff in Hq as (u & <- & Hu).
    apply filter_In in Hu as [Hu Hc]. apply andb_true_iff in Hc as [H1 H2].
    apply Z.eqb_eq in H1, H2. exists p, u. repeat split; auto.
  - intros (p & u & Hp & -> & Hu & Hid & Hdel). exists p. split; [exact Hp|].
    apply in_map_iff. exists u. split; [reflexivity|]. apply filter_In. split; [exact Hu|].
    apply andb_true_iff. split; apply Z.eqb_eq; auto.
Qed.

(** X15.  With user ids that identify rows, GET / renders at most 20 posts,
    newest first, each a stored post with its live owner attached, and no
    stored post of a live owner is left out unless the page is full of posts
    at least as new. *)
Theorem get_index_lists_newest_live_posts (w : world) :
  unique_user_ids (w_db w) ->
  exists listed me w',
    run_page get_index w = (Index_html listed me, w')
    /\ fst (get_session_user w) = Value me
    /\ (length listed <= 20)%nat
    /\ StronglySorted newer_or_same (map ap_row listed)
    /\ Forall (fun ap => exists p u,
                 In p (posts (w_db w)) /\ ap_row ap = without_imgdata p
                 /\ ap_user ap = Some u /\ has_live_owner (w_db w) p u) listed
    /\ (forall p u, In p (posts (w_db w)) -> has_live_owner (w_db w) p u ->
          In (without_imgdata p) (map ap_row listed)
          \/ (length listed = 20%nat
              /\ Forall (fun ap => p_created_at p <= p_created_at (ap_row ap)) listed)).
Proof.
  intros Huniq.
  destruct (get_session_user_answers w) as (me & w1 & Hme).
  destruct (get_session_user_frame _ _ _ Hme) as [Hdb Hs].
  unfold run_page, get_index, bind. rewrite Hme.
  unfold select_index_posts, query, gets. rewrite Hdb.
  set (J := flat_map _ (posts (w_db w))).
  set (results := take (Z.to_nat POSTS_PER_PAGE) (order_by newest_first J)).
  assert (Hres : forall q, In q results ->
            exists p u, In p (posts (w_db w)) /\ q = without_imgdata p
                        /\ has_live_owner (w_db w) p u).
  { intros q Hq. subst results.
    apply list_elem_of_In, subseteq_take, list_elem_of_In, order_by_In in Hq.
    apply index_join_In. exact Hq. }
  destruct (make_posts_keeps_all results false w1) as (listed & qs & -> & Hrows & Hall).
  { rewrite Hdb. exact Huniq. }
  { rewrite Hdb. intros q Hq. destruct (Hres q Hq) as (p & u & _ & -> & Hu).
    exists u. exact Hu. }
  unfold ret. exists listed, me. eexists. split; [reflexivity|].
  assert (Hlen : length listed = length results)
    by (rewrite <- Hrows; symmetry; apply length_map).
  assert (Hcap : (length results <= 20)%nat).
  { subst results. pose proof (firstn_le_length (Z.to_nat POSTS_PER_PAGE)
                                 (order_by newest_first J)). unfold POSTS_PER_PAGE in *. lia. }
  split; [reflexivity|]. split; [lia|]. split; [|split].
  - rewrite Hrows. apply StronglySorted_take, newest_first_sorted.
  - apply List.Forall_forall. intros ap Hap.
    destruct (Hres (ap_row ap)) as (p & u & Hp & Hrow & Hu).
    { rewrite <- Hrows. apply in_map. exact Hap. }
    destruct (proj1 (List.Forall_forall _ _) Hall ap Hap) as (v & Hv & Hlive).
    rewrite Hdb in Hlive. exists p, v. repeat split; auto; try apply Hlive.
    rewrite Hrow in Hlive. apply Hlive.
  - intros p u Hp Hu.
    assert (HJ : In (without_imgdata p) (order_by newest_first J)).
    { apply order_by_In, index_join_In. eauto. }
    destruct (take_sorted_top newer_or_same (Z.to_nat POSTS_PER_PAGE) _ _
                (newest_first_sorted J) HJ) as [Hin|[Hfull Htop]].
    + left. rewrite Hrows. exact Hin.
    + right. split; [rewrite Hlen; exact Hfull|].
      apply List.Forall_forall. intros ap Hap.
      assert (Hr : In (ap_row ap) results) by (rewrite <- Hrows; apply in_map; exact Hap).
      exact (proj1 (List.Forall_forall _ _) Htop _ Hr).
Qed.

Lemma sample_unique_user_ids : unique_user_ids Sample.db.
Proof.
  intros u v [<-|[<-|[<-|[]]]] [<-|[<-|[<-|[]]]]; simpl; intros H;
    first [reflexivity | discriminate H].
Qed.

(** On the sample store the page shows Alice's post and not Bob's. *)
Lemma get_index_lists_newest_live_posts_witness :
  exists listed me w',
    run_page get_index Sample.anonymous = (Index_html listed me, w')
    /\ map ap_row listed = [without_imgdata Sample.alice_post].
Proof.
  destruct (get_index_lists_newest_live_posts Sample.anonymous sample_unique_user_ids)
    as (listed & me & w' & Hrun & _).
  exists listed, me, w'. split; [exact Hrun|].
  assert (Hc : fst (run_page get_index Sample.anonymous)
               = Index_html [APost (without_imgdata Sample.alice_post) (Some Sample.alice)
                               [AComment Sample.first_comment (Some Sample.bob);
                                AComment Sample.second_comment (Some Sample.alice)] 2] None)
    by (vm_compute; reflexivity).
  rewrite Hrun in Hc. simpl in Hc. injection Hc as -> _. reflexivity.
Defined.

Lemma without_imgdata_In (f : post -> bool) (ps : list post) (q : post) :
  In q (map without_imgdata (List.filter f ps)) ->
  exists p, In p ps /\ f p = true /\ q = without_imgdata p.
Proof.
  intros H. apply in_map_iff in H as (p & <- & Hp). apply filter_In in Hp as [Hp Hf].
  exists p. auto.
Qed.

Lemma parse_nonempty (s : string) (t : datetime) :
  _parse_iso8601 s = Some t -> String.eqb s EmptyString = false.
Proof. destruct s; [discriminate|reflexivity]. Qed.

(** X16.  GET /posts with a max_created_at that parses to [t] renders at
    most 20 posts, newest first, none created after [t], each a stored post
    with its live owner attached. *)
Theorem get_posts_page_is_bounded
    (timestamp : datetime -> Z) (s : string) (t : datetime) (w : world) :
  _parse_iso8601 s = Some t ->
  exists listed w',
    run_page (get_posts timestamp (Some s)) w = (Posts_html listed, w')
    /\ (length listed <= 20)%nat
    /\ StronglySorted newer_or_same (map ap_row listed)
    /\ Forall (fun ap =>
         p_created_at (ap_row ap) <= timestamp t
         /\ exists p u,
              In p (posts (w_db w)) /\ ap_row ap = without_imgdata p
              /\ ap_user ap = Some u /\ has_live_owner (w_db w) p u) listed.
Proof.
  intros Hparse. unfold run_page, get_posts, bind.
  rewrite (parse_nonempty _ _ Hparse), Hparse.
  unfold select_posts_page, query, gets.
  set (results := take (Z.to_nat POSTS_PER_PAGE) (order_by newest_first _)).
  destruct (make_posts_spec results false w) as (listed & qs & -> & Hrows & Hall & _).
  unfold ret. exists listed. eexists. split; [reflexivity|].
  assert (Hcap : (length results <= 20)%nat).
  { subst results. match goal with |- (length (take ?n ?l) <= _)%nat =>
      pose proof (firstn_le_length n l) end. unfold POSTS_PER_PAGE in *. lia. }
  split; [|split].
  - rewrite <- (length_map ap_row), Hrows.
    pose proof (filter_length_le (owner_live (batch_users results false w)) results). lia.
  - rewrite Hrows. apply StronglySorted_filter, StronglySorted_take, newest_first_sorted.
  - apply List.Forall_forall. intros ap Hap.
    assert (Hr : In (ap_row ap) results).
    { assert (H : In (ap_row ap) (map ap_row listed)) by (apply in_map; exact Hap).
      rewrite Hrows in H. apply filter_In in H. tauto. }
    subst results.
    apply list_elem_of_In, subseteq_take, list_elem_of_In, order_by_In in Hr.
    apply without_imgdata_In in Hr as (p & Hp & Hle & Hrow).
    apply Z.leb_le in Hle.
    destruct (proj1 (List.Forall_forall _ _) Hall ap Hap) as (u & Hu & _ & Hlive).
    split; [rewrite Hrow; exact Hle|].
    exists p, u. repeat split; auto; try apply Hlive.
    rewrite Hrow in Hlive. apply Hlive.
Qed.

Lemma get_posts_page_is_bounded_witness :
  exists listed w',
    run_page (get_posts sample_timestamp (Some "2016-01-02T00:06:40+09:00")) Sample.anonymous
      = (Posts_html listed, w')
    /\ (length listed <= 20)%nat
    /\ Forall (fun ap => p_created_at (ap_row ap) <= 400) listed.
Proof.
  destruct (get_posts_page_is_bounded sample_timestamp "2016-01-02T00:06:40+09:00"
              (Datetime 2016 1 2 0 6 40) Sample.anonymous eq_refl)
    as (listed & w' & H1 & H2 & _ & H3).
  exists listed, w'. split; [exact H1|]. split; [exact H2|].
  eapply Forall_impl; [exact H3|]. intros ap [H _]. exact H.
Defined.



(** ** Timestamps *)

Lemma digits_app (n : nat) (acc : Z) (s rest r : string) (v : Z) :
  digits n acc s = Some (v, r) -> digits n acc (s +:+ rest) = Some (v, r +:+ rest).
Proof.
  revert acc s. induction n as [|n IH]; simpl; intros acc s.
  - intros [= <- <-]. reflexivity.
  - destruct s as [|c s]; [discriminate|]. simpl.
    destruct (Py.is_digit c); [apply IH|discriminate].
Qed.

Lemma one_of_app (cls : ascii -> bool) (s rest r : string) :
  one_of cls s = Some r -> one_of cls (s +:+ rest) = Some (r +:+ rest).
Proof.
  destruct s as [|c s]; simpl; [discriminate|].
  destruct (cls c); [|discriminate]. intros [= <-]. reflexivity.
Qed.

#[local] Arguments digits : simpl never.
#[local] Arguments one_of : simpl never.

(** X18.  [_parse_iso8601] reads the first nineteen characters only: what
    follows an accepted timestamp, a time zone for one, changes nothing. *)
Theorem parse_iso8601_ignores_suffix (s rest : string) (t : datetime) :
  _parse_iso8601 s = Some t -> _parse_iso8601 (s +:+ rest) = Some t.
Proof.
  unfold _parse_iso8601. intros H.
  repeat match type of H with
  | context [digits ?n ?a ?x] =>
      let E := fresh "E" in
      destruct (digits n a x) as [[? ?]|] eqn:E; simpl in H; [|discriminate H];
      rewrite (digits_app _ _ _ rest _ _ E); simpl
  | context [one_of ?c ?x] =>
      let E := fresh "E" in
      destruct (one_of c x) as [?|] eqn:E; simpl in H; [|discriminate H];
      rewrite (one_of_app _ _ rest _ E); simpl
  end.
  exact H.
Qed.

Lemma parse_iso8601_ignores_suffix_witness :
  _parse_iso8601 ("2016-01-02T11:46:21" +:+ "+09:00") = Some (Datetime 2016 1 2 11 46 21).
Proof.
  apply (parse_iso8601_ignores_suffix "2016-01-02T11:46:21" "+09:00"). reflexivity.
Defined.

Example parse_iso8601_rejects_february_30 :
  _parse_iso8601 "2016-02-30 11:46:21" = None.
Proof. reflexivity. Qed.

Example parse_iso8601_rejects_short_fields :
  _parse_iso8601 "2016-1-2 11:46:21" = None.
Proof. reflexivity. Qed.

(** ** The page of a user *)

Lemma mem_post_ids (f : post -> bool) (ps : list post) (x : Z) :
  mem x (map p_id (List.filter f ps))
  = existsb (fun p => f p && (x =? p_id p)) ps.
Proof.
  unfold mem. induction ps as [|p ps IH]; simpl; [reflexivity|].
  destruct (f p); simpl; rewrite IH; reflexivity.
Qed.

(** X19.  With user ids that identify rows, GET /@<account_name> for an
    account the store finds active renders that user with at most 20 of the
    user's own posts, newest first, each carrying the user as owner, and with
    the number of the user's posts, of the user's comments and of the
    comments made on the user's posts. *)
Theorem get_user_list_page
    (account_name_eq : string -> string -> bool) (account_name : string)
    (w w1 : world) (profile : user) :
  unique_user_ids (w_db w) ->
  select_user_by_account_live account_name_eq account_name w = (Value (Some profile), w1) ->
  exists listed me w',
    run_page (get_user_list account_name_eq account_name) w
    = (User_html listed profile
         (Z.of_nat (length (List.filter (fun p => p_user_id p =? u_id profile)
                                        (posts (w_db w)))))
         (Z.of_nat (length (List.filter (fun c => c_user_id c =? u_id profile)
                                        (comments (w_db w)))))
         (Z.of_nat (length (List.filter
            (fun c => existsb (fun p => (p_user_id p =? u_id profile)
                                        && (c_post_id c =? p_id p)) (posts (w_db w)))
            (comments (w_db w)))))
         me, w')
    /\ In profile (users (w_db w)) /\ u_del_flg profile = 0
    /\ (length listed <= 20)%nat
    /\ StronglySorted newer_or_same (map ap_row listed)
    /\ Forall (fun ap =>
         p_user_id (ap_row ap) = u_id profile
         /\ ap_user ap = Some profile
         /\ exists p, In p (posts (w_db w)) /\ ap_row ap = without_imgdata p) listed.
Proof.
  intros Huniq Hsel.
  assert (Hfound : In profile (users (w_db w)) /\ u_del_flg profile = 0
                   /\ w_db w1 = w_db w /\ w_session w1 = w_session w).
  { revert Hsel.
    unfold select_user_by_account_live, execute, modify, gets, bind, ret. simpl.
    intros [= Hf <-]. apply fetchone_filter_some in Hf as [Hin Hc].
    apply andb_true_iff in Hc as [_ Hdel]. apply Z.eqb_eq in Hdel. auto. }
  destruct Hfound as (Hin & Hdel & Hdb & Hs).
  unfold run_page, get_user_list, bind. rewrite Hsel.
  unfold select_user_posts, query, gets. rewrite Hdb.
  set (results := take (Z.to_nat POSTS_PER_PAGE) (order_by newest_first _)).
  assert (Hres : forall q, In q results ->
            exists p, In p (posts (w_db w)) /\ p_user_id p = u_id profile
                      /\ q = without_imgdata p).
  { intros q Hq. subst results.
    apply list_elem_of_In, subseteq_take, list_elem_of_In, order_by_In in Hq.
    apply without_imgdata_In in Hq as (p & Hp & Hid & Hrow).
    apply Z.eqb_eq in Hid. eauto. }
  destruct (make_posts_keeps_all results false w1) as (listed & qs & -> & Hrows & Hall).
  { rewrite Hdb. exact Huniq. }
  { rewrite Hdb. intros q Hq. destruct (Hres q Hq) as (p & _ & Hid & ->).
    exists profile. repeat split; auto. }
  cbn [w_db w_session w_log]. rewrite ?Hdb, length_map.
  assert (Hcount :
    (if Z.of_nat (length (List.filter (fun p => p_user_id p =? u_id profile)
                                      (posts (w_db w)))) >? 0
     then Z.of_nat (length (List.filter
            (fun c => mem (c_post_id c)
                        (map p_id (List.filter (fun p => p_user_id p =? u_id profile)
                                               (posts (w_db w)))))
            (comments (w_db w))))
     else 0)
    = Z.of_nat (length (List.filter
        (fun c => existsb (fun p => (p_user_id p =? u_id profile)
                                    && (c_post_id c =? p_id p)) (posts (w_db w)))
        (comments (w_db w))))).
  { destruct (Z.gtb_spec (Z.of_nat (length (List.filter
                 (fun p => p_user_id p =? u_id profile) (posts (w_db w))))) 0) as [Hpos|Hzero].
    - do 2 f_equal. apply filter_ext. intros c. apply mem_post_ids.
    - assert (Hnil : List.filter (fun p => p_user_id p =? u_id profile) (posts (w_db w)) = [])
        by (destruct (List.filter _ (posts (w_db w))); [reflexivity|simpl in Hzero; lia]).
      rewrite filter_none; [reflexivity|].
      intros c _. rewrite <- mem_post_ids, Hnil. reflexivity. }
  rewrite <- Hcount. clear Hcount.
  destruct (get_session_user_answers (World (w_db w) (w_session w1) (w_log w1 ++ qs)))
    as (me & w2 & Hme).
  exists listed, me, w2. split.
  - destruct (_ >? 0); unfold ret; cbn beta iota zeta; cbn [w_db w_session w_log];
      rewrite ?Hdb, Hme; reflexivity.
  - split; [exact Hin|]. split; [exact Hdel|].
    assert (Hlen : length listed = length results)
      by (rewrite <- Hrows; symmetry; apply length_map).
    split; [|split].
    + subst results.
      match type of Hlen with _ = length (take ?n ?l) =>
        pose proof (firstn_le_length n l) end. unfold POSTS_PER_PAGE in *. lia.
    + rewrite Hrows. apply StronglySorted_take, newest_first_sorted.
    + apply List.Forall_forall. intros ap Hap.
      destruct (Hres (ap_row ap)) as (p & Hp & Hid & Hrow).
      { rewrite <- Hrows. apply in_map. exact Hap. }
      destruct (proj1 (List.Forall_forall _ _) Hall ap Hap) as (v & Hv & Hv1 & Hv2 & _).
      rewrite Hdb in Hv1.
      assert (Howner : p_user_id (ap_row ap) = u_id profile) by (rewrite Hrow; exact Hid).
      assert (v = profile) by (apply Huniq; auto; congruence). subst v.
      split; [exact Howner|]. split; [exact Hv|]. eauto.
Qed.

Lemma get_user_list_page_witness :
  exists listed me w',
    fst (run_page (get_user_list Sample.account_name_eq "alice01") Sample.anonymous)
    = User_html listed Sample.alice 1 1 2 me
    /\ snd (run_page (get_user_list Sample.account_name_eq "alice01") Sample.anonymous) = w'
    /\ Forall (fun ap => ap_user ap = Some Sample.alice) listed.
Proof.
  destruct (get_user_list_page Sample.account_name_eq "alice01" Sample.anonymous _
              Sample.alice sample_unique_user_ids eq_refl)
    as (listed & me & w' & Hrun & _ & _ & _ & _ & Hall).
  exists listed, me, w'. rewrite Hrun. split; [reflexivity|]. split; [reflexivity|].
  eapply Forall_impl; [exact Hall|]. intros ap (_ & H & _). exact H.
Defined.



(** ** Edges of the handlers *)

(** X21.  GET /image/<id>.<ext> ends in an uncaught exception, not in 404,
    for an id in plain text that is not empty and does not convert to an
    integer (ValueError, before the store is asked) or converts to an
    integer other than 0 under which no post is stored (TypeError). *)
Theorem get_image_crashes (id ext : string) (w : world) :
  id <> EmptyString ->
  plain id = true ->
  (Py.int id = None -> run_view (get_image id ext) w = (Crash ValueError, w))
  /\ (forall n, Py.int id = Some n -> n <> 0 ->
        (forall p, In p (posts (w_db w)) -> p_id p <> n) ->
        run_view (get_image id ext) w
        = (Crash TypeError, with_log (fun l => l ++ [Select_post_by_id n]) w)).
Proof.
  intros Hne _. unfold get_image.
  destruct (String.eqb_spec id EmptyString) as [|_]; [contradiction|]. split.
  - intros ->. reflexivity.
  - intros n -> Hn Hnone.
    destruct (Z.eqb_spec n 0) as [|_]; [contradiction|].
    unfold run_view, select_post_by_id, execute, modify, gets, bind, ret, raise. simpl.
    rewrite filter_none; [reflexivity|].
    intros p Hp. apply Z.eqb_neq. auto.
Qed.

Lemma get_image_crashes_witness :
  run_view (get_image "9" "jpg") Sample.anonymous
  = (Crash TypeError, with_log (fun l => l ++ [Select_post_by_id 9]) Sample.anonymous)
  /\ run_view (get_image "one" "jpg") Sample.anonymous
     = (Crash ValueError, Sample.anonymous).
Proof.
  split.
  - refine (proj2 (get_image_crashes "9" "jpg" Sample.anonymous _ eq_refl) 9 eq_refl _ _).
    + discriminate.
    + lia.
    + intros p [<-|[<-|[]]]; simpl; lia.
  - refine (proj1 (get_image_crashes "one" "jpg" Sample.anonymous _ eq_refl) eq_refl).
    discriminate.
Defined.

(** X22.  An authenticated POST / with the session's token and no usable
    file (none sent, one without a file name, or one whose declared type is
    not among the three image types) answers the redirect to / with a flashed
    message; the store is as before. *)
Theorem post_index_rejects_bad_file
    (req : request) (w w1 : world) (me : user) (tok : string) :
  get_session_user w = (Value (Some me), w1) ->
  form_get req "csrf_token" = Some tok ->
  s_csrf_token (w_session w) = Some tok ->
  match files_get req "file" with
  | None => True
  | Some file => filename file = EmptyString \/ supported_mime (mimetype file) = false
  end ->
  exists w' message,
    run_view (post_index req) w = (Redirect "/", w')
    /\ w_db w' = w_db w
    /\ s_flashes (w_session w') = s_flashes (w_session w) ++ [message].
Proof.
  intros Hme Hf Hs Hfile.
  destruct (get_session_user_frame _ _ _ Hme) as [Hdb Hsess].
  unfold run_view, post_index, bind.
  rewrite Hme, (csrf_mismatch_detects req w1 tok tok Hf) by congruence.
  rewrite String.eqb_refl. simpl.
  destruct (files_get req "file") as [file|].
  - simpl. destruct (String.eqb_spec (filename file) EmptyString) as [|Hname]; simpl.
    + eexists _, _. split; [reflexivity|]. simpl. rewrite Hdb, Hsess. auto.
    + destruct Hfile as [|Hmime]; [contradiction|]. rewrite Hmime. simpl.
      eexists _, _. split; [reflexivity|]. simpl. rewrite Hdb, Hsess. auto.
  - eexists _, _. split; [reflexivity|]. simpl. rewrite Hdb, Hsess. auto.
Qed.

(** Alice sends a PDF under the name of an image. *)
Lemma post_index_rejects_bad_file_witness :
  let req := Request [("csrf_token", "a11ce")]
                     [("file", FileStorage "cat.png" "application/pdf" Sample.png_bytes)] in
  exists w' message,
    run_view (post_index req) Sample.as_alice = (Redirect "/", w')
    /\ w_db w' = Sample.db
    /\ s_flashes (w_session w') = [] ++ [message].
Proof.
  intros req.
  apply (post_index_rejects_bad_file req Sample.as_alice
           (with_log (fun l => l ++ [Select_user_by_id 2]) Sample.as_alice)
           Sample.alice "a11ce").
  - reflexivity.
  - reflexivity.
  - reflexivity.
  - right. reflexivity.
Defined.

(** X23.  A form without the field csrf_token is answered 400 by POST /,
    POST /comment and (for a user with authority) POST /admin/banned, and a
    POST /comment without the field post_id, or with a post_id in plain text
    that converts and without the field comment, likewise; nothing is
    inserted or updated. *)
Theorem missing_form_field_is_bad_request
    (req : request) (w w1 : world) (me : user) :
  get_session_user w = (Value (Some me), w1) ->
  (form_get req "csrf_token" = None ->
     run_view (post_index req) w = (Abort 400, w1)
     /\ run_view (post_comment req) w = (Abort 400, w1)
     /\ (u_authority me <> 0 -> run_view (post_banned req) w = (Abort 400, w1)))
  /\ (forall tok, form_get req "csrf_token" = Some tok ->
        s_csrf_token (w_session w) = Some tok ->
        (form_get req "post_id" = None ->
           run_view (post_comment req) w = (Abort 400, w1))
        /\ (forall raw post_id, form_get req "post_id" = Some raw ->
              plain raw = true ->
              Py.re_match_repeat Py.is_digit 1 raw = true ->
              Py.int raw = Some post_id ->
              form_get req "comment" = None ->
              run_view (post_comment req) w = (Abort 400, w1)))
  /\ w_db w1 = w_db w /\ w_session w1 = w_session w.
Proof.
  intros Hme. destruct (get_session_user_frame _ _ _ Hme) as [Hdb Hsess].
  split; [|split; [|auto]].
  - intros Hnone.
    unfold run_view, post_index, post_comment, post_banned, csrf_mismatch, form_item,
      bind, ret, abort.
    rewrite Hme, Hnone. simpl. repeat split.
    intros Ha. destruct (Z.eqb_spec (u_authority me) 0); [contradiction|reflexivity].
  - intros tok Hf Hs.
    unfold run_view, post_comment, bind.
    rewrite Hme, (csrf_mismatch_detects req w1 tok tok Hf) by congruence.
    rewrite String.eqb_refl. simpl. unfold form_item. split.
    + intros ->. reflexivity.
    + intros raw post_id -> _ Hre Hint ->. simpl. rewrite Hre, Hint. reflexivity.
Qed.

Lemma missing_form_field_is_bad_request_witness :
  run_view (post_comment (Request [("post_id", "1"); ("comment", "hi")] [])) Sample.as_alice
  = (Abort 400, with_log (fun l => l ++ [Select_user_by_id 2]) Sample.as_alice).
Proof.
  refine (proj1 (proj2 (proj1 (missing_form_field_is_bad_request
            (Request [("post_id", "1"); ("comment", "hi")] []) Sample.as_alice _
            Sample.alice _) _))).
  - reflexivity.
  - reflexivity.
Defined.

(** X24.  GET /admin/banned by a user with authority computes the list of
    candidates and returns nothing: the view ends without a response, and
    the store is as before. *)
Theorem get_banned_renders_nothing (w w1 : world) (me : user) :
  get_session_user w = (Value (Some me), w1) ->
  u_authority me <> 0 ->
  run_view get_banned w
  = (View_returned_none, with_log (fun l => l ++ [Select_ban_candidates]) w1)
  /\ w_db w1 = w_db w.
Proof.
  intros Hme Ha. destruct (get_session_user_frame _ _ _ Hme) as [Hdb _].
  unfold run_view, get_banned, bind, discard, ret. rewrite Hme. simpl.
  destruct (Z.eqb_spec (u_authority me) 0); [contradiction|]. auto.
Qed.

Lemma get_banned_renders_nothing_witness :
  fst (run_view get_banned Sample.as_root) = View_returned_none.
Proof.
  rewrite (proj1 (get_banned_renders_nothing Sample.as_root _ Sample.root eq_refl
                    ltac:(discriminate))).
  reflexivity.
Defined.

(** ** From the upload to the page of the post *)

Lemma get_session_user_In (w w1 : world) (me : user) :
  get_session_user w = (Value (Some me), w1) -> In me (users (w_db w)).
Proof.
  unfold get_session_user, select_user_by_id, execute, modify, gets, bind, ret.
  destruct (s_user (w_session w)); simpl; [|discriminate].
  intros [= H _]. apply fetchone_filter_some in H. tauto.
Qed.

(** X25.  When the store compares an integer with its decimal writing as
    equal and with the writing of no other integer, user ids identify rows
    and post ids are below their counter: after an accepted upload by a user
    who is not banned, the page that POST / redirects to is served by
    GET /posts/<id> and shows the post just stored, with the uploader as
    owner. *)
Theorem upload_then_view
    (int_eq_str : Z -> string -> bool)
    (req : request) (w w1 : world) (me : user) (tok : string) (file : file_storage) :
  (forall n, int_eq_str n (Py.fmt_d n) = true) ->
  (forall m n, int_eq_str m (Py.fmt_d n) = true -> m = n) ->
  unique_user_ids (w_db w) ->
  fresh_post_ids (w_db w) ->
  get_session_user w = (Value (Some me), w1) ->
  u_del_flg me = 0 ->
  form_get req "csrf_token" = Some tok ->
  s_csrf_token (w_session w) = Some tok ->
  files_get req "file" = Some file ->
  filename file <> EmptyString ->
  supported_mime (mimetype file) = true ->
  Z.of_nat (length (stream file)) <= UPLOAD_LIMIT ->
  let out := run_view (post_index req) w in
  let id := Py.fmt_d (next_post_id (w_db w)) in
  fst out = Redirect ("/posts/" +:+ id)
  /\ exists ap viewer,
       fst (run_view (get_posts_id int_eq_str id) (snd out)) = Render_post ap viewer
       /\ ap_row ap = Post (next_post_id (w_db w)) (u_id me) (mimetype file) (stream file)
                           (form_get req "body") (now (w_db w))
       /\ ap_user ap = Some me.
Proof.
  intros Hself Hinj Huniq Hfresh Hme Hdel Hf Hs Hfile Hname Hmime Hsize out id.
  pose proof (get_session_user_In _ _ _ Hme) as Hin.
  destruct (get_session_user_frame _ _ _ Hme) as [Hdb Hsess].
  subst out. rewrite (post_index_upload req w w1 me tok file) by assumption.
  destruct (Z.gtb_spec (Z.of_nat (length (stream file))) UPLOAD_LIMIT) as [|_]; [lia|].
  split; [reflexivity|]. cbn [fst snd].
  set (new := Post (next_post_id (w_db w)) (u_id me) (mimetype file) (stream file)
                   (form_get req "body") (now (w_db w))).
  set (w2 := with_db _ _).
  assert (Hu2 : users (w_db w2) = users (w_db w)) by (subst w2; simpl; rewrite Hdb; reflexivity).
  assert (Hp2 : posts (w_db w2) = posts (w_db w) ++ [new]) by reflexivity.
  unfold run_view, get_posts_id, bind.
  unfold select_post_live_owner at 1. unfold execute, modify, gets, bind, ret.
  cbn [fst snd w_db with_log]. fold (w_db w2). rewrite Hp2, Hu2.
  rewrite List.filter_app, (filter_none (fun p => int_eq_str (p_id p) id)).
  2: { intros p Hp. destruct (int_eq_str (p_id p) id) eqn:E; [|reflexivity].
       apply Hinj in E. specialize (Hfresh p Hp). lia. }
  cbn [List.filter app]. subst id. change (p_id new) with (next_post_id (w_db w)).
  rewrite Hself. cbn [flat_map]. rewrite app_nil_r.
  set (owners := List.filter _ (users (w_db w))).
  assert (Howners : In me owners).
  { subst owners. apply filter_In. split; [exact Hin|]. simpl.
    rewrite Z.eqb_refl, Hdel. reflexivity. }
  set (w3 := with_log _ w2).
  assert (Hu3 : users (w_db w3) = users (w_db w)) by exact Hu2.
  destruct (make_posts_keeps_all (map (fun _ => new) owners) true w3)
    as (listed & qs & -> & Hrows & Hall).
  { unfold unique_user_ids. rewrite Hu3. exact Huniq. }
  { intros p Hp. apply in_map_iff in Hp as (u & <- & Hu). exists me.
    unfold has_live_owner. rewrite Hu3. auto. }
  destruct owners as [|o owners]; [destruct Howners|].
  destruct listed as [|ap listed]; [discriminate Hrows|].
  injection Hrows as Hrow _.
  destruct (get_session_user_answers (World (w_db w3) (w_session w3) (w_log w3 ++ qs)))
    as (viewer & w4 & Hviewer).
  cbn beta iota zeta. rewrite Hviewer.
  exists ap, viewer. split; [reflexivity|]. split; [exact Hrow|].
  inversion Hall as [|? ? (u & Hu & Hu1 & Hu2' & _) _]; subst.
  rewrite Hu. f_equal. apply Huniq; auto.
  - rewrite Hu3 in Hu1. exact Hu1.
  - rewrite Hu2', Hrow. reflexivity.
Qed.

Lemma sample_decimal_eq (m n : Z) : Sample.int_eq_str m (Py.fmt_d n) = true -> m = n.
Proof.
  unfold Sample.int_eq_str. intros H. apply String.eqb_eq in H.
  apply (inj pretty) in H. exact H.
Qed.

(** Alice uploads a PNG and opens the page she is sent to. *)
Lemma upload_then_view_witness :
  let req := Request [("csrf_token", "a11ce"); ("body", "sunset")]
                     [("file", FileStorage "sunset.png" "image/png" Sample.png_bytes)] in
  exists ap viewer,
    fst (run_view (get_posts_id Sample.int_eq_str "3")
                  (snd (run_view (post_index req) Sample.as_alice)))
    = Render_post ap viewer
    /\ ap_user ap = Some Sample.alice.
Proof.
  intros req.
  destruct (upload_then_view Sample.int_eq_str req Sample.as_alice
              (with_log (fun l => l ++ [Select_user_by_id 2]) Sample.as_alice)
              Sample.alice "a11ce"
              (FileStorage "sunset.png" "image/png" Sample.png_bytes))
    as (_ & ap & viewer & H1 & _ & H2).
  - intros n. apply String.eqb_refl.
  - exact sample_decimal_eq.
  - exact sample_unique_user_ids.
  - intros p [<-|[<-|[]]]; simpl; lia.
  - reflexivity.
  - reflexivity.
  - reflexivity.
  - reflexivity.
  - reflexivity.
  - discriminate.
  - reflexivity.
  - vm_compute. discriminate.
  - exists ap, viewer. split; [exact H1|exact H2].
Defined.

(** ** The validation of credentials *)

Lemma prefix_len_split (cls : ascii -> bool) (n : nat) (s : string) :
  (n <= Py.prefix_len cls s)%nat
  <-> exists head rest,
        s = head +:+ rest /\ String.length head = n /\ Py.all_in cls head = true.
Proof.
  revert s. induction n as [|n IH]; intros s.
  - split; [|lia]. intros _. exists EmptyString, s. auto.
  - destruct s as [|c s]; simpl.
    + split; [lia|]. intros (h & r & Hs & Hl & _). destruct h; simpl in *; discriminate.
    + destruct (cls c) eqn:E.
      * rewrite <- Nat.succ_le_mono, IH. split.
        -- intros (h & r & -> & Hl & Ha). exists (String c h), r. simpl.
           rewrite E, Ha, Hl. auto.
        -- intros (h & r & Hs & Hl & Ha). destruct h as [|d h]; [discriminate Hl|].
           simpl in *. injection Hs as <- ->. injection Hl as Hl.
           rewrite E in Ha. exists h, r. auto.
      * split; [lia|]. intros (h & r & Hs & Hl & Ha).
        destruct h as [|d h]; [discriminate Hl|]. simpl in *.
        injection Hs as <- _. rewrite E in Ha. discriminate Ha.
Qed.

(** X26.  [validate_user] accepts a pair exactly when the account name
    starts with three characters of [0-9a-zA-Z] and the password starts with
    six characters of [0-9a-zA-Z_]; what follows them is not looked at. *)
Theorem validate_user_checks_prefixes (account_name password : string) :
  validate_user account_name password = true
  <-> (exists head rest,
         account_name = head +:+ rest /\ String.length head = 3%nat
         /\ Py.all_in Py.is_alnum head = true)
      /\ (exists head rest,
          password = head +:+ rest /\ String.length head = 6%nat
          /\ Py.all_in Py.is_word head = true).
Proof.
  rewrite <- !prefix_len_split. unfold validate_user, Py.re_match_repeat.
  destruct (Nat.leb_spec 3 (Py.prefix_len Py.is_alnum account_name));
    destruct (Nat.leb_spec 6 (Py.prefix_len Py.is_word password)); simpl;
    split; try discriminate; try tauto; lia.
Qed.

(** ** [int] at the edge of whitespace *)

(** The separators 0x1c to 0x1f are not stripped: the conversion fails. *)
Example int_rejects_file_separator :
  Py.int (String (ascii_of_nat 28) "7") = None
  /\ Py.int ("1" +:+ String (ascii_of_nat 31) EmptyString) = None.
Proof. split; reflexivity. Qed.

(** Tab, line feed, vertical tab, form feed, carriage return and space are. *)
Example int_strips_ascii_whitespace :
  Py.int (String (ascii_of_nat 9) (String (ascii_of_nat 11) " 42"
          +:+ String (ascii_of_nat 12) (String (ascii_of_nat 13)
               (String (ascii_of_nat 10) EmptyString)))) = Some 42.
Proof. reflexivity. Qed.

(** With such a uid the administrator bans nobody. *)
Example post_banned_skips_separator_padded_uid :
  let req := Request [("csrf_token", "r00t"); ("uid", String (ascii_of_nat 28) "2")] [] in
  users (w_db (snd (run_view (post_banned req) Sample.as_root))) = users Sample.db.
Proof. reflexivity. Qed.
